(** * The redis task backend of pulsar (pulsar/apps/tasks/backends/redis.py)

    A shallow embedding of [TaskData] and of the methods of [TaskBackend],
    with the properties of the task queue stated over it.

    The backend is a set of generator coroutines: every [yield] of a store,
    queue or pubsub call is an interaction with the outside, and the value
    of the last [yield] is the result of the call.  The embedding threads
    one state through the calls: the table of task records, the ready
    queue, the local registry of waiters, and the trace of the queries,
    writes, queue operations and publications in the order they are made.
    The calls of one backend run one after the other; the memoised set-up
    of the task manager (the subscription to task_done, the registration
    of the model) is not part of the trace. *)

From Stdlib Require Import ZArith String List.
From stdpp Require Import base strings list gmap.

Local Open Scope string_scope.
Local Open Scope list_scope.
Set Warnings "-register-all".

(** ** Python values

    The payloads the backend moves around without looking inside them. *)

Inductive value :=
| VNone
| VInt (n : Z)
| VStr (s : string)
| VDict (d : list (string * value)).

(** ** Task states *)

Module states.

(** Modelled from the spec: the module [pulsar.apps.tasks.states] is not
    part of the sources at hand.  The state machine is
    QUEUED -> STARTED -> SUCCESS | FAILURE | REVOKED, the last three
    being the terminal ("ready") states. *)
Definition QUEUED : string := "QUEUED".
Definition STARTED : string := "STARTED".
Definition SUCCESS : string := "SUCCESS".
Definition FAILURE : string := "FAILURE".
Definition REVOKED : string := "REVOKED".

Definition READY_STATES : list string := [SUCCESS; FAILURE; REVOKED].

Definition is_ready (status : value) : bool :=
  match status with
  | VStr s => existsb (String.eqb s) READY_STATES
  | _ => false
  end.

(** Modelled from the spec: the position of a state in the state
    machine; a status that is not one of the five states has none. *)
Definition rank (status : value) : option nat :=
  match status with
  | VStr s =>
      if String.eqb s QUEUED then Some 0
      else if String.eqb s STARTED then Some 1
      else if existsb (String.eqb s) READY_STATES then Some 2
      else None
  | _ => None
  end.

End states.

(** ** Tasks *)

Module Task.

(** Modelled from the spec: the class [backends.Task] is not part of the
    sources at hand.  A task is built as [Task(id, **params)]; [done()]
    holds when the status is SUCCESS, FAILURE or REVOKED. *)
Record t := mk { id : string; params : gmap string value }.

Definition status (task : t) : value :=
  default VNone (params task !! "status").

Definition done (task : t) : bool := states.is_ready (status task).

End Task.

(** ** Task records *)

Module TaskData.

(** The scalar fields of the model next to the primary key [id] and the
    JSON field [meta]. *)
Inductive field :=
| f_name | f_status | f_args | f_kwargs | f_result | f_from_task
| f_time_executed | f_time_started | f_time_ended | f_expiry.

Definition field_name (f : field) : string :=
  match f with
  | f_name => "name"
  | f_status => "status"
  | f_args => "args"
  | f_kwargs => "kwargs"
  | f_result => "result"
  | f_from_task => "from_task"
  | f_time_executed => "time_executed"
  | f_time_started => "time_started"
  | f_time_ended => "time_ended"
  | f_expiry => "expiry"
  end.

Record t := mk {
  id : string;
  name : value;
  status : value;
  args : value;
  kwargs : value;
  result : value;
  from_task : value;
  time_executed : value;
  time_started : value;
  time_ended : value;
  expiry : value;
  meta : gmap string value
}.

(** [getattr(self, field.attname, None)] *)
Definition getattr (self : t) (f : field) : value :=
  match f with
  | f_name => name self
  | f_status => status self
  | f_args => args self
  | f_kwargs => kwargs self
  | f_result => result self
  | f_from_task => from_task self
  | f_time_executed => time_executed self
  | f_time_started => time_started self
  | f_time_ended => time_ended self
  | f_expiry => expiry self
  end.

(** [setattr(self, field, value)] for a scalar field. *)
Definition setattr (self : t) (f : field) (v : value) : t :=
  let 'mk i n s a k r ft te ts tn e m := self in
  match f with
  | f_name => mk i v s a k r ft te ts tn e m
  | f_status => mk i n v a k r ft te ts tn e m
  | f_args => mk i n s v k r ft te ts tn e m
  | f_kwargs => mk i n s a v r ft te ts tn e m
  | f_result => mk i n s a k v ft te ts tn e m
  | f_from_task => mk i n s a k r v te ts tn e m
  | f_time_executed => mk i n s a k r ft v ts tn e m
  | f_time_started => mk i n s a k r ft te v tn e m
  | f_time_ended => mk i n s a k r ft te ts v e m
  | f_expiry => mk i n s a k r ft te ts tn v m
  end.

(** [self.meta = m] *)
Definition set_meta (self : t) (m : gmap string value) : t :=
  let 'mk i n s a k r ft te ts tn e _ := self in
  mk i n s a k r ft te ts tn e m.

(** [self.id = i] *)
Definition set_id (self : t) (i : string) : t :=
  let 'mk _ n s a k r ft te ts tn e m := self in
  mk i n s a k r ft te ts tn e m.

(** [_meta.dfields]: the names of all the fields the model declares, the
    primary key and the list field [queue] included. *)
Definition dfields : list string :=
  "id" :: map field_name
    [f_name; f_status; f_args; f_kwargs; f_result; f_from_task;
     f_time_executed; f_time_started; f_time_ended; f_expiry]
  ++ ["meta"; "queue"].

Definition in_dfields (k : string) : bool := existsb (String.eqb k) dfields.

(** [_meta.scalarfields] without the JSON field, which [as_task] below
    adds last.  The primary key and the list field [queue] are not among
    the scalar fields. *)
Definition scalarfields : list field :=
  [f_name; f_status; f_args; f_kwargs; f_result; f_from_task;
   f_time_executed; f_time_started; f_time_ended; f_expiry].

(** [as_task]: the meta mapping, overridden by the scalar fields, as the
    keyword parameters of a [Task] with the record's id. *)
Definition as_task (self : t) : Task.t :=
  let params := meta self in
  let params :=
    foldl (fun p f => <[field_name f := getattr self f]> p)
          params scalarfields in
  let params := <["meta" := VDict (map_to_list (meta self))]> params in
  Task.mk (id self) params.

End TaskData.

(** ** The local registry of waiters *)

Module TaskCallbacks.

(** Modelled from the spec: the class [TaskCallbacks] is not part of the
    sources at hand.  The registry maps a task id to the handles waiting
    for that task.  [when_done] on a task that is done resolves at once
    and registers nothing, otherwise it registers a new handle under the
    id of the task.  [finish] pops all the handles registered under the
    id of the task and fulfils each of them with the task; without a
    handle it does nothing.  The spec describes [finish] for tasks that
    are done and describes deletion as finishing the waiters whatever
    the status: [finish] itself does not look at the status. *)
Record t := mk {
  pending : gmap string (list nat);
  fulfilled : list (nat * Task.t);
  issued : nat
}.

Definition empty : t := mk ∅ [] 0.

Inductive deferred :=
| resolved (task : Task.t)
| waiting (handle : nat).

Definition waiters (self : t) (task_id : string) : list nat :=
  default [] (pending self !! task_id).

Definition when_done (self : t) (task : Task.t) : deferred * t :=
  if Task.done task then (resolved task, self)
  else
    let h := issued self in
    (waiting h,
     mk (<[Task.id task := waiters self (Task.id task) ++ [h]]> (pending self))
        (fulfilled self)
        (S h)).

Definition finish (self : t) (task : Task.t) : t :=
  match pending self !! Task.id task with
  | Some handles =>
      mk (delete (Task.id task) (pending self))
         (fulfilled self ++ map (fun h => (h, task)) handles)
         (issued self)
  | None => self
  end.

End TaskCallbacks.

(** ** Keyword arguments of [save_task]

    [save_task(task_id, **params)] receives the fields to store as keyword
    arguments.  They are typed after the declared fields of [TaskData]:
    the primary key [id] carries a symbol, a scalar field carries a
    value, [meta] carries a mapping, the list field [queue] carries a
    value, and any other keyword is one whose name is not a field of the
    model.  The list follows the order in which [params.items()] yields
    the entries. *)

Inductive kwarg :=
| kw_field (f : TaskData.field) (v : value)
| kw_meta (m : gmap string value)
| kw_extra (k : string) (v : value) (Hk : TaskData.in_dfields k = false)
| kw_id (i : string)
| kw_queue (v : value).

Definition kwarg_name (kw : kwarg) : string :=
  match kw with
  | kw_field f _ => TaskData.field_name f
  | kw_meta _ => "meta"
  | kw_extra k _ _ => k
  | kw_id _ => "id"
  | kw_queue _ => "queue"
  end.

Definition kwarg_value (kw : kwarg) : value :=
  match kw with
  | kw_field _ v => v
  | kw_meta m => VDict (map_to_list m)
  | kw_extra _ v _ => v
  | kw_id i => VStr i
  | kw_queue v => v
  end.

(** [setattr(task_data, field, value)] for a keyword that names a field.
    The attribute [queue] set on an instance hides the list of the class
    for that instance; it is none of the values that [save] writes or
    that [as_task] reads, so the record is as before. *)
Definition setattr (task_data : TaskData.t) (kw : kwarg) : TaskData.t :=
  match kw with
  | kw_field f v => TaskData.setattr task_data f v
  | kw_meta m => TaskData.set_meta task_data m
  | kw_extra _ _ _ => task_data
  | kw_id i => TaskData.set_id task_data i
  | kw_queue _ => task_data
  end.

(** The body of the loop of [save_task] over [params.items()]. *)
Definition update_field (task_data : TaskData.t) (kw : kwarg) : TaskData.t :=
  if TaskData.in_dfields (kwarg_name kw) then setattr task_data kw
  else
    (* not a field put value in the meta json field *)
    TaskData.set_meta task_data
      (<[kwarg_name kw := kwarg_value kw]> (TaskData.meta task_data)).

Definition update_fields (task_data : TaskData.t) (params : list kwarg)
  : TaskData.t :=
  foldl update_field task_data params.

(** ** The state of one backend and its interactions *)

(** A query of the task manager: [filter(id=task_id)] with one id, or
    [filter(id=ids)] with a collection of ids. *)
Inductive query :=
| id_is (task_id : string)
| id_in (ids : list string).

Definition matches (q : query) (task_data : TaskData.t) : bool :=
  match q with
  | id_is task_id => String.eqb (TaskData.id task_data) task_id
  | id_in ids => existsb (String.eqb (TaskData.id task_data)) ids
  end.

(** The interactions of the backend with the store, the ready queue and
    the pubsub channel.  The timeout of a pop is passed on as it is given;
    it is a whole number here. *)
Inductive event :=
| ev_filter_all (q : query)
| ev_filter_delete (q : query)
| ev_save (task_id : string)
| ev_new (task_id : string)
| ev_queue_size
| ev_queue_push_back (task_id : string)
| ev_queue_block_pop_front (timeout : Z)
| ev_publish (channel message : string).

Record backend := mk_backend {
  taskdata : list TaskData.t;
  queue : list string;
  watched_tasks : TaskCallbacks.t;
  trace : list event
}.

Definition is_store_write (e : event) : bool :=
  match e with
  | ev_save _ | ev_new _ | ev_filter_delete _ => true
  | _ => false
  end.

Definition is_queue_change (e : event) : bool :=
  match e with
  | ev_queue_push_back _ | ev_queue_block_pop_front _ => true
  | _ => false
  end.

(** A coroutine of the backend: a function of the state that returns the
    value of its last [yield] and the state it leaves. *)
Definition M (A : Type) : Type := backend -> A * backend.

Definition ret {A} (a : A) : M A := fun st => (a, st).

Definition bind {A B} (c : M A) (k : A -> M B) : M B :=
  fun st => let r := c st in k (fst r) (snd r).

Notation "'let!' x ':=' c 'in' k" := (bind c (fun x => k))
  (at level 10, x name, c at level 100, k at level 200).

Definition emit (e : event) : M unit :=
  fun st =>
    (tt, mk_backend (taskdata st) (queue st) (watched_tasks st)
                    (trace st ++ [e])).

Definition with_taskdata (f : list TaskData.t -> list TaskData.t) : M unit :=
  fun st =>
    (tt, mk_backend (f (taskdata st)) (queue st) (watched_tasks st) (trace st)).

Definition with_queue (f : list string -> list string) : M unit :=
  fun st =>
    (tt, mk_backend (taskdata st) (f (queue st)) (watched_tasks st) (trace st)).

Definition with_watched_tasks {A}
    (f : TaskCallbacks.t -> A * TaskCallbacks.t) : M A :=
  fun st =>
    let r := f (watched_tasks st) in
    (fst r, mk_backend (taskdata st) (queue st) (snd r) (trace st)).

(** ** Exceptions

    What a call can raise in place of a result: [TypeError] when a call
    is given the same keyword twice, [ValueError] when the constructor of
    a record is given a keyword it does not accept. *)

Inductive exn := TypeError | ValueError.

(** The keywords the constructor of a record accepts next to the id: the
    scalar fields and the meta mapping. *)
Definition constructor_keyword (kw : kwarg) : bool :=
  match kw with
  | kw_field _ _ | kw_meta _ => true
  | _ => false
  end.

Definition is_id_keyword (kw : kwarg) : bool :=
  match kw with
  | kw_id _ => true
  | _ => false
  end.

(** ** The task manager: the store and the ready queue

    The object-data mapper and redis are outside the sources at hand.
    The store is a table of records keyed by their id: a query returns the
    stored records with a matching id, [save] replaces the stored record
    with the id of the instance or adds the instance, [new] builds an
    instance from the keywords that name fields and saves it, [delete]
    removes the matching records.  The ready queue is a list of ids,
    pushed at the back and popped at the front; a blocking pop on an
    empty queue times out and yields nothing. *)

Module task_manager.

Definition has_id (task_id : string) (task_data : TaskData.t) : bool :=
  String.eqb (TaskData.id task_data) task_id.

Definition upsert (task_data : TaskData.t) (table : list TaskData.t)
  : list TaskData.t :=
  if existsb (has_id (TaskData.id task_data)) table
  then map (fun r => if has_id (TaskData.id task_data) r
                     then task_data else r) table
  else table ++ [task_data].

Definition blank (task_id : string) : TaskData.t :=
  TaskData.mk task_id VNone VNone VNone VNone VNone VNone VNone VNone VNone
              VNone ∅.

(** [TaskData(id=task_id, **params)]: the instance the mapper builds.  A
    keyword [id] among [params] is the keyword [id] given twice, which
    the call itself refuses; the constructor takes the scalar fields and
    the meta mapping from the keywords and refuses any other keyword. *)
Definition init (task_id : string) (params : list kwarg)
  : exn + TaskData.t :=
  if existsb is_id_keyword params then inl TypeError
  else if forallb constructor_keyword params
       then inr (foldl setattr (blank task_id) params)
       else inl ValueError.

(** [task_manager.filter(...).all()] *)
Definition filter_all (q : query) : M (list TaskData.t) :=
  let! _ := emit (ev_filter_all q) in
  fun st => (List.filter (matches q) (taskdata st), st).

(** [task_manager.filter(...).delete()] *)
Definition filter_delete (q : query) : M unit :=
  let! _ := emit (ev_filter_delete q) in
  with_taskdata (List.filter (fun r => negb (matches q r))).

(** [task_data.save()] *)
Definition save (task_data : TaskData.t) : M TaskData.t :=
  let! _ := emit (ev_save (TaskData.id task_data)) in
  let! _ := with_taskdata (upsert task_data) in
  ret task_data.

(** [task_manager.new(id=task_id, **params)]: the instance is built first;
    when that raises, the store is not reached. *)
Definition new (task_id : string) (params : list kwarg)
  : M (exn + TaskData.t) :=
  match init task_id params with
  | inr task_data =>
      let! _ := emit (ev_new task_id) in
      let! _ := with_taskdata (upsert task_data) in
      ret (inr task_data)
  | inl e => ret (inl e)
  end.

(** [task_manager.queue.size()] *)
Definition queue_size : M nat :=
  let! _ := emit ev_queue_size in
  fun st => (length (queue st), st).

(** [task_manager.queue.push_back(task_id)] *)
Definition queue_push_back (task_id : string) : M unit :=
  let! _ := emit (ev_queue_push_back task_id) in
  with_queue (fun q => q ++ [task_id]).

(** [task_manager.queue.block_pop_front(timeout=timeout)] *)
Definition queue_block_pop_front (timeout : Z) : M (option string) :=
  let! _ := emit (ev_queue_block_pop_front timeout) in
  fun st =>
    match queue st with
    | [] => (None, st)
    | task_id :: rest =>
        (Some task_id,
         mk_backend (taskdata st) rest (watched_tasks st) (trace st))
    end.

End task_manager.

(** [self.local.pubsub.publish(channel, message)] *)
Definition publish (channel message : string) : M unit :=
  emit (ev_publish channel message).

(** ** The backend *)

Module TaskBackend.

(** What a call of [save_task] ends with: the task id it yields last, or
    the exception it raises. *)
Inductive outcome :=
| returned (task_id : string)
| raised (e : exn).

(** What a call of [get_task] yields last: nothing, a task, or the
    deferred of [when_done]. *)
Inductive reply :=
| absent
| a_task (task : Task.t)
| a_deferred (d : TaskCallbacks.deferred).

(** Truth value of a task id: [None] and the empty string are false. *)
Definition truthy (task_id : option string) : bool :=
  match task_id with
  | Some s => negb (String.eqb s "")
  | None => false
  end.

(** Truth value of a collection of ids: [None] and the empty collection
    are false. *)
Definition truthy_ids (ids : option (list string)) : bool :=
  match ids with
  | Some (_ :: _) => true
  | _ => false
  end.

(** [_get_task]: the first of the stored records with the id, if any. *)
Definition _get_task (task_id : string) : M (option TaskData.t) :=
  let! tasks := task_manager.filter_all (id_is task_id) in
  ret (head tasks).

(** [num_tasks]: the number of tasks in the task queue. *)
Definition num_tasks : M nat := task_manager.queue_size.

Definition put_task (task_id : string) : M (option string) :=
  let! task_data := _get_task task_id in
  match task_data with
  | Some task_data =>
      let task_data :=
        TaskData.setattr task_data TaskData.f_status (VStr states.QUEUED) in
      let! task_data := task_manager.save task_data in
      let! _ := task_manager.queue_push_back (TaskData.id task_data) in
      ret (Some (TaskData.id task_data))
  | None => ret None
  end.

Definition get_task (task_id : option string) (when_done : bool)
    (timeout : Z) : M reply :=
  let! task_id :=
    (if negb (truthy task_id)
     then task_manager.queue_block_pop_front timeout
     else ret task_id) in
  if truthy task_id then
    let! task_data := _get_task (default "" task_id) in
    match task_data with
    | Some task_data =>
        let task := TaskData.as_task task_data in
        if when_done then
          let! d :=
            with_watched_tasks (fun w => TaskCallbacks.when_done w task) in
          ret (a_deferred d)
        else ret (a_task task)
    | None => ret absent
    end
  else ret absent.

Definition save_task (task_id : string) (params : list kwarg)
  : M outcome :=
  let! task_data := _get_task task_id in
  let! task_data :=
    match task_data with
    | Some task_data =>
        let! task_data :=
          task_manager.save (update_fields task_data params) in
        ret (inr task_data)
    | None => task_manager.new task_id params
    end in
  match task_data with
  | inr task_data =>
      let task := TaskData.as_task task_data in
      let! _ := with_watched_tasks (fun w => TaskCallbacks.when_done w task) in
      let! _ :=
        (if Task.done task
         then
           (* task is done, publish task_id into the task_done channel *)
           publish "task_done" task_id
         else ret tt) in
      ret (returned task_id)
  | inl e => ret (raised e)
  end.

(** The loop of [delete_tasks] over the records it has read. *)
Fixpoint finish_all (tasks : list TaskData.t) (deleted : nat) : M nat :=
  match tasks with
  | [] => ret deleted
  | task_data :: rest =>
      let! _ :=
        with_watched_tasks
          (fun w => (tt, TaskCallbacks.finish w (TaskData.as_task task_data))) in
      finish_all rest (deleted + 1)
  end.

Definition delete_tasks (ids : option (list string)) : M nat :=
  let deleted := 0 in
  if truthy_ids ids then
    let q := id_in (default [] ids) in
    let! tasks := task_manager.filter_all q in
    let! _ := task_manager.filter_delete q in
    finish_all tasks deleted
  else ret deleted.

(** [get_tasks] with a filter on the id, the one filter the backend
    itself relies on; the other filters are the store's. *)
Definition get_tasks (filters : query) : M (list Task.t) :=
  let! tasks := task_manager.filter_all filters in
  ret (map TaskData.as_task tasks).

(** [write]: a message from the task_done channel. *)
Definition write (task_id : string) : M unit :=
  let! task_data := _get_task task_id in
  match task_data with
  | Some task_data =>
      with_watched_tasks
        (fun w => (tt, TaskCallbacks.finish w (TaskData.as_task task_data)))
  | None => ret tt
  end.

End TaskBackend.

(** ** What a reload finds, and the events of one call *)

(** The record a reload by id ([_get_task]) yields in a state. *)
Definition stored (st : backend) (task_id : string) : option TaskData.t :=
  fst (TaskBackend._get_task task_id st).


(** The record [save_task] writes: the reloaded record with the fields
    applied, or a new record when the constructor accepts the keywords. *)
Definition saved (st : backend) (task_id : string) (params : list kwarg)
  : exn + TaskData.t :=
  match stored st task_id with
  | Some task_data => inr (update_fields task_data params)
  | None => task_manager.init task_id params
  end.

Definition save_event (st : backend) (task_id : string)
    (written : TaskData.t) : event :=
  match stored st task_id with
  | Some _ => ev_save (TaskData.id written)
  | None => ev_new task_id
  end.

(** The registry after the loop of [delete_tasks]. *)
Definition finish_each w (tasks : list TaskData.t) : TaskCallbacks.t :=
  foldl (fun w task_data =>
           TaskCallbacks.finish w (TaskData.as_task task_data)) w tasks.

(** What [get_task] does once it has a task id that counts as true: the
    reload of the record and what it yields last. *)
Definition load (task_id : string) (when_done : bool) (st : backend)
  : TaskBackend.reply * backend :=
  let tr := trace st ++ [ev_filter_all (id_is task_id)] in
  match stored st task_id with
  | None =>
      (TaskBackend.absent,
       mk_backend (taskdata st) (queue st) (watched_tasks st) tr)
  | Some task_data =>
      let task := TaskData.as_task task_data in
      if when_done then
        let r := TaskCallbacks.when_done (watched_tasks st) task in
        (TaskBackend.a_deferred (fst r),
         mk_backend (taskdata st) (queue st) (snd r) tr)
      else
        (TaskBackend.a_task task,
         mk_backend (taskdata st) (queue st) (watched_tasks st) tr)
  end.

(** The outcome of loading the record of [task_id] from the state [st]:
    nothing without a record; otherwise the record as a task, or, when
    the caller waits for completion, a deferred, which is resolved at
    once with the task when the task is done and is otherwise a new
    handle, waiting under the id, that is fulfilled with the task in its
    done state when the task is finished in a done state. *)
Definition loads_record (task_id : string) (when_done : bool) (st : backend)
    (r : TaskBackend.reply) (st' : backend) : Prop :=
  taskdata st' = taskdata st /\
  queue st' = queue st /\
  match stored st task_id with
  | None => r = TaskBackend.absent /\ watched_tasks st' = watched_tasks st
  | Some task_data =>
      let task := TaskData.as_task task_data in
      if when_done then
        if states.is_ready (TaskData.status task_data) then
          r = TaskBackend.a_deferred (TaskCallbacks.resolved task) /\
          watched_tasks st' = watched_tasks st
        else
          exists h,
            r = TaskBackend.a_deferred (TaskCallbacks.waiting h) /\
            TaskCallbacks.waiters (watched_tasks st') task_id
            = TaskCallbacks.waiters (watched_tasks st) task_id ++ [h] /\
            forall done_task,
              Task.id done_task = task_id ->
              Task.done done_task = true ->
              (h, done_task)
                ∈ TaskCallbacks.fulfilled
                    (TaskCallbacks.finish (watched_tasks st') done_task)
      else r = TaskBackend.a_task task /\ watched_tasks st' = watched_tasks st
  end.

(** ** Sample states *)

Definition task_record (task_id status : string) : TaskData.t :=
  TaskData.mk task_id (VStr "add") (VStr status) VNone VNone VNone VNone
              VNone VNone VNone VNone ∅.

(** A backend that stores the task t1 in the given status, with the given
    ready queue, no waiter and no interaction so far. *)
Definition one_task (status : string) (ready : list string) : backend :=
  mk_backend [task_record "t1" status] ready TaskCallbacks.empty [].

Definition requeue : list kwarg :=
  [kw_field TaskData.f_status (VStr states.QUEUED)].

Definition report_started : list kwarg :=
  [kw_field TaskData.f_status (VStr states.STARTED);
   kw_extra "worker" (VStr "w1") eq_refl].

(** A keyword that names no field, followed by a meta mapping. *)
Definition worker_then_meta : list kwarg :=
  [kw_extra "worker" (VStr "w1") eq_refl; kw_meta ∅].

(** The state after an observer has asked for t1 with [when_done] while
    the task is STARTED. *)
Definition observed : backend :=
  snd (TaskBackend.get_task (Some "t1") true 1 (one_task states.STARTED [])).

(** ** Tables with one record per id *)

(** No two stored records have the same id. *)
Definition unique_ids (st : backend) : Prop :=
  NoDup (TaskData.id <$> taskdata st).

(** The keywords of a call that supplies no meta mapping, as a dict: the
    names are distinct. *)
Definition plain (params : list kwarg) : Prop :=
  NoDup (kwarg_name <$> params) /\ "meta" ∉ kwarg_name <$> params.

Definition report_success : list kwarg :=
  [kw_field TaskData.f_result (VInt 5);
   kw_field TaskData.f_status (VStr states.SUCCESS)].

(** ** The table of records *)

Section Table.

Implicit Types (task_data r : TaskData.t) (table : list TaskData.t).
Implicit Types (k task_id : string).

Lemma has_id_true task_id r :
  task_manager.has_id task_id r = true <-> TaskData.id r = task_id.
Proof. unfold task_manager.has_id. apply String.eqb_eq. Qed.

Lemma has_id_false task_id r :
  task_manager.has_id task_id r = false <-> TaskData.id r <> task_id.
Proof. unfold task_manager.has_id. apply String.eqb_neq. Qed.

Lemma filter_head_id task_id table r :
  head (List.filter (task_manager.has_id task_id) table) = Some r ->
  TaskData.id r = task_id.
Proof.
  induction table as [|x table IH]; simpl; [discriminate|].
  destruct (task_manager.has_id task_id x) eqn:E; simpl; [|exact IH].
  intros [= <-]. now apply has_id_true.
Qed.

Lemma filter_none_existsb task_id table :
  existsb (task_manager.has_id task_id) table = false ->
  List.filter (task_manager.has_id task_id) table = [].
Proof.
  induction table as [|x table IH]; simpl; [reflexivity|].
  destruct (task_manager.has_id task_id x); simpl; [discriminate|exact IH].
Qed.

Lemma upsert_head task_data table :
  head (List.filter (task_manager.has_id (TaskData.id task_data))
                    (task_manager.upsert task_data table)) = Some task_data.
Proof.
  unfold task_manager.upsert.
  destruct (existsb _ table) eqn:E.
  - induction table as [|x table IH]; simpl in *; [discriminate|].
    destruct (task_manager.has_id (TaskData.id task_data) x) eqn:Hx; simpl.
    + assert (task_manager.has_id (TaskData.id task_data) task_data = true)
        as -> by now apply has_id_true.
      reflexivity.
    + rewrite Hx. simpl in E. now apply IH.
  - rewrite List.filter_app, filter_none_existsb by exact E. simpl.
    assert (task_manager.has_id (TaskData.id task_data) task_data = true)
      as -> by now apply has_id_true.
    reflexivity.
Qed.

Lemma upsert_other task_data table k :
  k <> TaskData.id task_data ->
  List.filter (task_manager.has_id k) (task_manager.upsert task_data table)
  = List.filter (task_manager.has_id k) table.
Proof.
  intros Hk.
  assert (task_manager.has_id k task_data = false) as Hnew
    by (apply has_id_false; congruence).
  unfold task_manager.upsert.
  destruct (existsb _ table) eqn:E.
  - clear E. induction table as [|x table IH]; simpl; [reflexivity|].
    destruct (task_manager.has_id (TaskData.id task_data) x) eqn:Hx.
    + apply has_id_true in Hx.
      assert (task_manager.has_id k x = false) as ->
        by (apply has_id_false; congruence).
      rewrite Hnew. exact IH.
    + destruct (task_manager.has_id k x); [f_equal|]; exact IH.
  - rewrite List.filter_app. simpl. rewrite Hnew. apply app_nil_r.
Qed.

End Table.

(** ** Tasks built from records *)

Lemma as_task_id task_data :
  Task.id (TaskData.as_task task_data) = TaskData.id task_data.
Proof. reflexivity. Qed.

Lemma as_task_status task_data :
  Task.status (TaskData.as_task task_data) = TaskData.status task_data.
Proof.
  unfold Task.status, TaskData.as_task. cbn [Task.params].
  rewrite lookup_insert_ne by discriminate.
  cbn [foldl TaskData.scalarfields TaskData.field_name TaskData.getattr].
  do 8 (rewrite lookup_insert_ne by discriminate).
  now rewrite lookup_insert_eq.
Qed.

Lemma as_task_done task_data :
  Task.done (TaskData.as_task task_data)
  = states.is_ready (TaskData.status task_data).
Proof. unfold Task.done. now rewrite as_task_status. Qed.

(** ** One call, step by step *)

Section Runs.

Import TaskBackend.

Lemma _get_task_run task_id st :
  _get_task task_id st
  = (stored st task_id,
     mk_backend (taskdata st) (queue st) (watched_tasks st)
                (trace st ++ [ev_filter_all (id_is task_id)])).
Proof. reflexivity. Qed.

Lemma stored_eq st task_id :
  stored st task_id
  = head (List.filter (task_manager.has_id task_id) (taskdata st)).
Proof. reflexivity. Qed.

Lemma stored_id st task_id task_data :
  stored st task_id = Some task_data -> TaskData.id task_data = task_id.
Proof. apply filter_head_id. Qed.

Lemma save_task_run task_id params st :
  save_task task_id params st
  = match saved st task_id params with
    | inr written =>
        let task := TaskData.as_task written in
        (returned task_id,
         mk_backend
           (task_manager.upsert written (taskdata st))
           (queue st)
           (snd (TaskCallbacks.when_done (watched_tasks st) task))
           (trace st
            ++ [ev_filter_all (id_is task_id); save_event st task_id written]
            ++ (if Task.done task
                then [ev_publish "task_done" task_id] else [])))
    | inl e =>
        (raised e,
         mk_backend (taskdata st) (queue st) (watched_tasks st)
                    (trace st ++ [ev_filter_all (id_is task_id)]))
    end.
Proof.
  unfold save_task, save_event, saved, bind. rewrite _get_task_run.
  cbn [fst snd].
  destruct (stored st task_id) as [task_data|].
  - cbn -[TaskData.as_task TaskCallbacks.when_done task_manager.upsert
          update_fields].
    destruct (Task.done _);
      cbn -[TaskData.as_task TaskCallbacks.when_done task_manager.upsert
            update_fields];
      rewrite <- ?app_assoc; reflexivity.
  - unfold task_manager.new.
    destruct (task_manager.init task_id params) as [e|written];
      [reflexivity|].
    cbn -[TaskData.as_task TaskCallbacks.when_done task_manager.upsert].
    destruct (Task.done _);
      cbn -[TaskData.as_task TaskCallbacks.when_done task_manager.upsert];
      rewrite <- ?app_assoc; reflexivity.
Qed.

End Runs.

(** ** Fields set one after the other *)

Lemma in_dfields_field f : TaskData.in_dfields (TaskData.field_name f) = true.
Proof. destruct f; reflexivity. Qed.

Lemma getattr_setattr_eq task_data f v :
  TaskData.getattr (TaskData.setattr task_data f v) f = v.
Proof. destruct task_data, f; reflexivity. Qed.

Lemma getattr_setattr_ne task_data f g v :
  f <> g ->
  TaskData.getattr (TaskData.setattr task_data f v) g
  = TaskData.getattr task_data g.
Proof. destruct task_data, f, g; intros H; try reflexivity; now destruct H. Qed.

Lemma getattr_set_meta task_data m g :
  TaskData.getattr (TaskData.set_meta task_data m) g
  = TaskData.getattr task_data g.
Proof. destruct task_data, g; reflexivity. Qed.

Lemma meta_setattr task_data f v :
  TaskData.meta (TaskData.setattr task_data f v) = TaskData.meta task_data.
Proof. destruct task_data, f; reflexivity. Qed.

Lemma meta_set_meta task_data m :
  TaskData.meta (TaskData.set_meta task_data m) = m.
Proof. destruct task_data; reflexivity. Qed.

Lemma id_setattr task_data f v :
  TaskData.id (TaskData.setattr task_data f v) = TaskData.id task_data.
Proof. destruct task_data, f; reflexivity. Qed.

Lemma id_set_meta task_data m :
  TaskData.id (TaskData.set_meta task_data m) = TaskData.id task_data.
Proof. destruct task_data; reflexivity. Qed.

Lemma getattr_set_id task_data i g :
  TaskData.getattr (TaskData.set_id task_data i) g
  = TaskData.getattr task_data g.
Proof. destruct task_data, g; reflexivity. Qed.

Lemma meta_set_id task_data i :
  TaskData.meta (TaskData.set_id task_data i) = TaskData.meta task_data.
Proof. destruct task_data; reflexivity. Qed.

Lemma id_set_id task_data i :
  TaskData.id (TaskData.set_id task_data i) = i.
Proof. destruct task_data; reflexivity. Qed.

Lemma update_field_field task_data f v :
  update_field task_data (kw_field f v) = TaskData.setattr task_data f v.
Proof. unfold update_field. simpl. now rewrite in_dfields_field. Qed.

Lemma update_field_meta task_data m :
  update_field task_data (kw_meta m) = TaskData.set_meta task_data m.
Proof. reflexivity. Qed.

Lemma update_field_extra task_data k v Hk :
  update_field task_data (kw_extra k v Hk)
  = TaskData.set_meta task_data (<[k := v]> (TaskData.meta task_data)).
Proof. unfold update_field. simpl. now rewrite Hk. Qed.

Lemma update_field_id_keyword task_data i :
  update_field task_data (kw_id i) = TaskData.set_id task_data i.
Proof. reflexivity. Qed.

Lemma update_field_queue task_data v :
  update_field task_data (kw_queue v) = task_data.
Proof. reflexivity. Qed.

(** A keyword whose name is not a field of the model is an extra one. *)
Lemma not_in_dfields_extra kw :
  TaskData.in_dfields (kwarg_name kw) = false ->
  exists k v Hk, kw = kw_extra k v Hk.
Proof.
  destruct kw as [f v|m|k v Hk|i|q]; simpl.
  - rewrite in_dfields_field. discriminate.
  - discriminate.
  - eauto.
  - discriminate.
  - discriminate.
Qed.

Section Fold.

(** What the loop of [save_task] and the constructor of a record share:
    a step that sets a scalar field for its keyword, leaves the scalar
    fields alone for the other keywords, and keeps the id but for the
    keyword id. *)
Variable step : TaskData.t -> kwarg -> TaskData.t.
Hypothesis step_field :
  forall task_data f v,
    step task_data (kw_field f v) = TaskData.setattr task_data f v.
Hypothesis step_other :
  forall task_data kw g,
    kwarg_name kw <> TaskData.field_name g ->
    TaskData.getattr (step task_data kw) g = TaskData.getattr task_data g.
Hypothesis step_id :
  forall task_data kw,
    kwarg_name kw <> "id" ->
    TaskData.id (step task_data kw) = TaskData.id task_data.
Hypothesis step_id_keyword :
  forall task_data i, TaskData.id (step task_data (kw_id i)) = i.

Lemma fold_id params task_data :
  "id" ∉ kwarg_name <$> params ->
  TaskData.id (foldl step task_data params) = TaskData.id task_data.
Proof.
  revert task_data. induction params as [|kw params IH]; intros td Hid; simpl.
  - reflexivity.
  - rewrite fmap_cons in Hid. apply not_elem_of_cons in Hid as [Hkw Hid].
    rewrite IH by exact Hid. apply step_id. congruence.
Qed.

Lemma fold_id_supplied params task_data i :
  NoDup (kwarg_name <$> params) ->
  kw_id i ∈ params ->
  TaskData.id (foldl step task_data params) = i.
Proof.
  intros Hnd Hin.
  apply list_elem_of_split in Hin as (p1 & p2 & ->).
  rewrite fmap_app, fmap_cons in Hnd.
  apply NoDup_app in Hnd as (_ & _ & Hnd).
  apply NoDup_cons in Hnd as [Hp2 _].
  rewrite foldl_app. simpl.
  rewrite fold_id by exact Hp2. apply step_id_keyword.
Qed.

Lemma fold_getattr_keep params task_data g :
  TaskData.field_name g ∉ kwarg_name <$> params ->
  TaskData.getattr (foldl step task_data params) g
  = TaskData.getattr task_data g.
Proof.
  revert task_data. induction params as [|kw params IH]; intros td Hg; simpl.
  - reflexivity.
  - rewrite fmap_cons in Hg. apply not_elem_of_cons in Hg as [Hkw Hg].
    rewrite IH by exact Hg. apply step_other. congruence.
Qed.

Lemma fold_getattr_supplied params task_data f v :
  NoDup (kwarg_name <$> params) ->
  kw_field f v ∈ params ->
  TaskData.getattr (foldl step task_data params) f = v.
Proof.
  intros Hnd Hin.
  apply list_elem_of_split in Hin as (p1 & p2 & ->).
  rewrite fmap_app, fmap_cons in Hnd.
  apply NoDup_app in Hnd as (_ & _ & Hnd).
  apply NoDup_cons in Hnd as [Hp2 _].
  rewrite foldl_app. simpl.
  rewrite fold_getattr_keep by exact Hp2.
  rewrite step_field. apply getattr_setattr_eq.
Qed.

End Fold.

Lemma update_field_other task_data kw g :
  kwarg_name kw <> TaskData.field_name g ->
  TaskData.getattr (update_field task_data kw) g
  = TaskData.getattr task_data g.
Proof.
  destruct kw as [f v|m|k v Hk|i|q]; simpl; intros Hne.
  - rewrite update_field_field. apply getattr_setattr_ne. congruence.
  - rewrite update_field_meta. apply getattr_set_meta.
  - rewrite update_field_extra. apply getattr_set_meta.
  - rewrite update_field_id_keyword. apply getattr_set_id.
  - now rewrite update_field_queue.
Qed.

Lemma update_field_id task_data kw :
  kwarg_name kw <> "id" ->
  TaskData.id (update_field task_data kw) = TaskData.id task_data.
Proof.
  destruct kw as [f v|m|k v Hk|i|q]; intros Hne.
  - rewrite update_field_field. apply id_setattr.
  - rewrite update_field_meta. apply id_set_meta.
  - rewrite update_field_extra. apply id_set_meta.
  - now destruct Hne.
  - now rewrite update_field_queue.
Qed.

Lemma setattr_other task_data kw g :
  kwarg_name kw <> TaskData.field_name g ->
  TaskData.getattr (setattr task_data kw) g = TaskData.getattr task_data g.
Proof.
  destruct kw as [f v|m|k v Hk|i|q]; simpl; intros Hne.
  - apply getattr_setattr_ne. congruence.
  - apply getattr_set_meta.
  - reflexivity.
  - apply getattr_set_id.
  - reflexivity.
Qed.

Lemma setattr_id task_data kw :
  kwarg_name kw <> "id" ->
  TaskData.id (setattr task_data kw) = TaskData.id task_data.
Proof.
  destruct kw as [f v|m|k v Hk|i|q]; simpl; intros Hne.
  - apply id_setattr.
  - apply id_set_meta.
  - reflexivity.
  - now destruct Hne.
  - reflexivity.
Qed.

Lemma update_fields_id task_data params :
  "id" ∉ kwarg_name <$> params ->
  TaskData.id (update_fields task_data params) = TaskData.id task_data.
Proof. apply fold_id, update_field_id. Qed.

Lemma update_fields_id_supplied task_data params i :
  NoDup (kwarg_name <$> params) ->
  kw_id i ∈ params ->
  TaskData.id (update_fields task_data params) = i.
Proof.
  apply (fold_id_supplied update_field update_field_id).
  intros td j. rewrite update_field_id_keyword. apply id_set_id.
Qed.

(** The keywords the constructor accepts have no id among them. *)
Lemma constructor_keywords_no_id params :
  forallb constructor_keyword params = true ->
  ("id" ∉ kwarg_name <$> params) /\ existsb is_id_keyword params = false.
Proof.
  induction params as [|kw params IH]; cbn [forallb existsb].
  - intros _. split; [|reflexivity]. intros Hin. now apply elem_of_nil in Hin.
  - intros Hall. apply andb_true_iff in Hall as [Hkw Hall].
    destruct (IH Hall) as [Hid Hex]. split.
    + rewrite fmap_cons. apply not_elem_of_cons. split; [|exact Hid].
      destruct kw as [f v|m|k v Hk|i|q]; try discriminate.
      destruct f; discriminate.
    + destruct kw; try discriminate; exact Hex.
Qed.

Lemma init_accepted task_id params :
  forallb constructor_keyword params = true ->
  task_manager.init task_id params
  = inr (foldl setattr (task_manager.blank task_id) params).
Proof.
  intros Hall. unfold task_manager.init.
  destruct (constructor_keywords_no_id params Hall) as [_ ->].
  now rewrite Hall.
Qed.

Lemma init_id task_id params written :
  task_manager.init task_id params = inr written ->
  TaskData.id written = task_id /\
  written = foldl setattr (task_manager.blank task_id) params /\
  forallb constructor_keyword params = true.
Proof.
  unfold task_manager.init.
  destruct (existsb is_id_keyword params); [discriminate|].
  destruct (forallb constructor_keyword params) eqn:Hall; [|discriminate].
  intros [= <-]. split; [|split; reflexivity].
  rewrite (fold_id setattr setattr_id); [reflexivity|].
  now apply constructor_keywords_no_id.
Qed.

(** An extra keyword stays in the meta mapping as long as no later keyword
    replaces the mapping or carries the same name. *)
Lemma update_fields_meta_keep params task_data k :
  k ∉ kwarg_name <$> params ->
  "meta" ∉ kwarg_name <$> params ->
  TaskData.meta (update_fields task_data params) !! k
  = TaskData.meta task_data !! k.
Proof.
  unfold update_fields. revert task_data.
  induction params as [|kw params IH]; intros td Hk Hm; simpl.
  - reflexivity.
  - rewrite fmap_cons in Hk, Hm.
    apply not_elem_of_cons in Hk as [Hk1 Hk], Hm as [Hm1 Hm].
    rewrite IH by assumption.
    destruct kw as [f v|m|k' v Hk'|i|q].
    + rewrite update_field_field. now rewrite meta_setattr.
    + now destruct Hm1.
    + rewrite update_field_extra, meta_set_meta.
      apply lookup_insert_ne. simpl in Hk1. congruence.
    + now rewrite update_field_id_keyword, meta_set_id.
    + now rewrite update_field_queue.
Qed.

(** ** Saving a task *)

Lemma saved_existing st task_id params task_data :
  stored st task_id = Some task_data ->
  saved st task_id params = inr (update_fields task_data params).
Proof. unfold saved. now intros ->. Qed.

Lemma saved_id st task_id params written :
  saved st task_id params = inr written ->
  "id" ∉ kwarg_name <$> params ->
  TaskData.id written = task_id.
Proof.
  unfold saved. destruct (stored st task_id) as [task_data|] eqn:Hs.
  - intros [= <-] Hid. rewrite update_fields_id by exact Hid.
    now apply stored_id in Hs.
  - intros Hinit _. now apply init_id in Hinit.
Qed.


Lemma save_task_stored task_id params st written :
  saved st task_id params = inr written ->
  stored (snd (TaskBackend.save_task task_id params st))
         (TaskData.id written)
  = Some written.
Proof.
  intros Hw. rewrite save_task_run, Hw. cbn [snd]. rewrite stored_eq.
  cbn [taskdata]. apply upsert_head.
Qed.

Lemma save_task_outcome task_id params st :
  fst (TaskBackend.save_task task_id params st)
  = match saved st task_id params with
    | inr _ => TaskBackend.returned task_id
    | inl e => TaskBackend.raised e
    end.
Proof.
  rewrite save_task_run. now destruct (saved st task_id params).
Qed.


(** C10: a save leaves the ready queue as it is, whatever the fields:
    none of its interactions is a push or a pop, and [num_tasks] returns
    the same number before and after. *)
Theorem save_task_keeps_queue task_id params st :
  let st' := snd (TaskBackend.save_task task_id params st) in
  queue st' = queue st /\
  fst (TaskBackend.num_tasks st') = fst (TaskBackend.num_tasks st) /\
  exists events,
    trace st' = trace st ++ events /\
    forallb (fun e => negb (is_queue_change e)) events = true.
Proof.
  intros st'. subst st'. rewrite save_task_run.
  destruct (saved st task_id params) as [e|written];
    cbn [snd queue trace].
  - split; [reflexivity|]. split; [reflexivity|].
    eexists. split; reflexivity.
  - split; [reflexivity|]. split; [reflexivity|].
    eexists. split; [reflexivity|].
    unfold save_event.
    destruct (stored st task_id), (Task.done _); reflexivity.
Qed.

(** ** Deleting tasks *)

(** C8: [delete_tasks] without ids ([None] or an empty collection) returns
    0 and leaves the whole state as it is: no query of the store, no
    deletion, no waiter finished. *)
Theorem delete_tasks_without_ids ids st :
  TaskBackend.truthy_ids ids = false ->
  TaskBackend.delete_tasks ids st = (0, st).
Proof.
  intros Hids. unfold TaskBackend.delete_tasks. now rewrite Hids.
Qed.

Lemma setattr_meta_keep params task_data :
  "meta" ∉ kwarg_name <$> params ->
  TaskData.meta (foldl setattr task_data params) = TaskData.meta task_data.
Proof.
  revert task_data. induction params as [|kw params IH]; intros td Hm; simpl.
  - reflexivity.
  - rewrite fmap_cons in Hm. apply not_elem_of_cons in Hm as [Hm1 Hm].
    rewrite IH by exact Hm.
    destruct kw as [f v|m|k v Hk|i|q]; simpl.
    + apply meta_setattr.
    + now destruct Hm1.
    + reflexivity.
    + apply meta_set_id.
    + reflexivity.
Qed.

Lemma NoDup_names_split (params p1 p2 : list kwarg) kw :
  NoDup (kwarg_name <$> params) ->
  params = p1 ++ kw :: p2 ->
  kwarg_name kw ∉ kwarg_name <$> p2.
Proof.
  intros Hnd ->. rewrite fmap_app, fmap_cons in Hnd.
  apply NoDup_app in Hnd as (_ & _ & Hnd).
  now apply NoDup_cons in Hnd as [Hp2 _].
Qed.

(** C3, as the code has it.  On a stored record [save_task] applies each
    keyword at its turn, in the order of [params.items()]: one that names
    a field is set on the record, any other one is stored in the meta
    mapping under its name, and none makes the call fail; the record is
    then saved under the id it has and the call returns the task id.  In
    the saved record every supplied scalar field has the supplied value,
    the fields that are not supplied are as before, a supplied meta
    mapping has replaced the mapping, and a keyword that names no field
    is in the meta mapping unless a meta mapping supplied after it has
    replaced the mapping.  Without a stored record, when every keyword is
    a scalar field or the meta mapping, the call returns the task id and
    the record stored under it is a new one with that id, the supplied
    fields and the supplied meta mapping. *)
Theorem save_task_sets_fields task_id params st :
  NoDup (kwarg_name <$> params) ->
  let st' := snd (TaskBackend.save_task task_id params st) in
  (forall task_data, stored st task_id = Some task_data ->
     let written := update_fields task_data params in
     fst (TaskBackend.save_task task_id params st)
     = TaskBackend.returned task_id /\
     stored st' (TaskData.id written) = Some written /\
     ("id" ∉ kwarg_name <$> params -> TaskData.id written = task_id) /\
     (forall i, kw_id i ∈ params -> TaskData.id written = i) /\
     (forall f v, kw_field f v ∈ params -> TaskData.getattr written f = v) /\
     (forall p1 f v p2, params = p1 ++ kw_field f v :: p2 ->
        written
        = update_fields
            (TaskData.setattr (update_fields task_data p1) f v) p2) /\
     (forall p1 k v Hk p2, params = p1 ++ kw_extra k v Hk :: p2 ->
        let before := update_fields task_data p1 in
        written
        = update_fields
            (TaskData.set_meta before (<[k := v]> (TaskData.meta before)))
            p2) /\
     (forall f, TaskData.field_name f ∉ kwarg_name <$> params ->
        TaskData.getattr written f = TaskData.getattr task_data f) /\
     (forall p1 m p2, params = p1 ++ kw_meta m :: p2 ->
        forall k, k ∉ kwarg_name <$> p2 ->
          TaskData.meta written !! k = m !! k) /\
     (forall p1 k v Hk p2, params = p1 ++ kw_extra k v Hk :: p2 ->
        "meta" ∉ kwarg_name <$> p2 ->
        TaskData.meta written !! k = Some v) /\
     (forall k, k ∉ kwarg_name <$> params ->
        "meta" ∉ kwarg_name <$> params ->
        TaskData.meta written !! k = TaskData.meta task_data !! k)) /\
  (stored st task_id = None ->
   forallb constructor_keyword params = true ->
   fst (TaskBackend.save_task task_id params st)
   = TaskBackend.returned task_id /\
   exists written,
     stored st' task_id = Some written /\
     TaskData.id written = task_id /\
     (forall f v, kw_field f v ∈ params -> TaskData.getattr written f = v) /\
     (forall f, TaskData.field_name f ∉ kwarg_name <$> params ->
        TaskData.getattr written f = VNone) /\
     (forall m, kw_meta m ∈ params -> TaskData.meta written = m) /\
     ("meta" ∉ kwarg_name <$> params -> TaskData.meta written = ∅)).
Proof.
  intros Hnd st'. split.
  - intros task_data Hs written.
    pose proof (saved_existing st task_id params task_data Hs) as Hw.
    fold written in Hw.
    split; [now rewrite save_task_outcome, Hw|].
    split; [now apply save_task_stored|].
    split; [intros Hid; exact (saved_id st task_id params written Hw Hid)|].
    split; [intros i Hi; now apply update_fields_id_supplied|].
    split.
    { intros f v Hin.
      apply (fold_getattr_supplied update_field update_field_field
               update_field_other); assumption. }
    subst written.
    split; [|split; [|split; [|split; [|split]]]].
    + intros p1 f v p2 ->. unfold update_fields. rewrite foldl_app. simpl.
      now rewrite update_field_field.
    + intros p1 k v Hk p2 ->. cbv zeta. unfold update_fields.
      rewrite foldl_app. simpl. now rewrite update_field_extra.
    + intros f Hf.
      now apply (fold_getattr_keep update_field update_field_other).
    + intros p1 m p2 -> k Hk.
      pose proof (NoDup_names_split _ p1 p2 (kw_meta m) Hnd eq_refl) as Hm.
      unfold update_fields. rewrite foldl_app. simpl.
      fold (update_fields (update_field (foldl update_field task_data p1)
                                        (kw_meta m)) p2).
      rewrite update_fields_meta_keep by assumption.
      now rewrite update_field_meta, meta_set_meta.
    + intros p1 k v Hk p2 -> Hm.
      pose proof (NoDup_names_split _ p1 p2 (kw_extra k v Hk) Hnd eq_refl)
        as Hk2.
      unfold update_fields. rewrite foldl_app. simpl.
      fold (update_fields (update_field (foldl update_field task_data p1)
                                        (kw_extra k v Hk)) p2).
      rewrite update_fields_meta_keep by assumption.
      rewrite update_field_extra, meta_set_meta. apply lookup_insert_eq.
    + intros k Hk Hm. now apply update_fields_meta_keep.
  - intros Hs Hall.
    assert (saved st task_id params
            = inr (foldl setattr (task_manager.blank task_id) params))
      as Hw by (unfold saved; rewrite Hs; now apply init_accepted).
    destruct (constructor_keywords_no_id params Hall) as [Hid _].
    pose proof (saved_id _ _ _ _ Hw Hid) as Hwid.
    split; [now rewrite save_task_outcome, Hw|].
    exists (foldl setattr (task_manager.blank task_id) params).
    split.
    { pose proof (save_task_stored _ _ _ _ Hw) as Hst.
      now rewrite Hwid in Hst. }
    split; [exact Hwid|].
    split; [|split; [|split]].
    + intros f v Hin.
      apply (fold_getattr_supplied setattr (fun _ _ _ => eq_refl)
               setattr_other); assumption.
    + intros f Hf.
      rewrite (fold_getattr_keep setattr setattr_other) by exact Hf.
      now destruct f.
    + intros m Hin. apply list_elem_of_split in Hin as (p1 & p2 & ->).
      pose proof (NoDup_names_split _ p1 p2 (kw_meta m) Hnd eq_refl) as Hm.
      rewrite foldl_app. simpl.
      rewrite setattr_meta_keep by exact Hm. apply meta_set_meta.
    + intros Hm. now rewrite setattr_meta_keep.
Qed.

(** ** Enqueueing a task *)

Lemma put_task_run task_id st :
  TaskBackend.put_task task_id st
  = match stored st task_id with
    | Some task_data =>
        let queued :=
          TaskData.setattr task_data TaskData.f_status (VStr states.QUEUED) in
        (Some (TaskData.id queued),
         mk_backend
           (task_manager.upsert queued (taskdata st))
           (queue st ++ [TaskData.id queued])
           (watched_tasks st)
           (trace st ++ [ev_filter_all (id_is task_id);
                         ev_save (TaskData.id queued);
                         ev_queue_push_back (TaskData.id queued)]))
    | None =>
        (None,
         mk_backend (taskdata st) (queue st) (watched_tasks st)
                    (trace st ++ [ev_filter_all (id_is task_id)]))
    end.
Proof.
  unfold TaskBackend.put_task, bind. rewrite _get_task_run. cbn [fst snd].
  destruct (stored st task_id) as [task_data|].
  - cbn -[task_manager.upsert TaskData.setattr]. rewrite <- !app_assoc.
    reflexivity.
  - reflexivity.
Qed.

(** C4: [put_task] on the id of a stored record sets the status of the
    record to QUEUED, saves it, pushes the id at the back of the ready
    queue and returns the id: the record then stored under the id has the
    status QUEUED and the id, the other fields and the meta mapping it
    had, and the other records and the waiters are as they were.  On an
    id without a record it returns nothing, and its only interaction is
    the query that found no record: nothing is pushed and nothing is
    written. *)
Theorem put_task_enqueues task_id st :
  (forall task_data, stored st task_id = Some task_data ->
     let st' := snd (TaskBackend.put_task task_id st) in
     fst (TaskBackend.put_task task_id st) = Some task_id /\
     stored st' task_id
       = Some (TaskData.setattr task_data TaskData.f_status
                                (VStr states.QUEUED)) /\
     TaskData.status <$> stored st' task_id = Some (VStr states.QUEUED) /\
     (forall queued, stored st' task_id = Some queued ->
        TaskData.id queued = task_id /\
        TaskData.meta queued = TaskData.meta task_data /\
        forall f, f <> TaskData.f_status ->
          TaskData.getattr queued f = TaskData.getattr task_data f) /\
     (forall k, k <> task_id -> stored st' k = stored st k) /\
     queue st' = queue st ++ [task_id] /\
     watched_tasks st' = watched_tasks st /\
     trace st' = trace st ++ [ev_filter_all (id_is task_id);
                              ev_save task_id;
                              ev_queue_push_back task_id]) /\
  (stored st task_id = None ->
     TaskBackend.put_task task_id st
     = (None,
        mk_backend (taskdata st) (queue st) (watched_tasks st)
                   (trace st ++ [ev_filter_all (id_is task_id)]))).
Proof.
  split.
  - intros task_data Hs st'.
    pose proof (stored_id _ _ _ Hs) as Hid.
    assert (stored st' task_id
            = Some (TaskData.setattr task_data TaskData.f_status
                                     (VStr states.QUEUED))) as Hq.
    { subst st'. rewrite put_task_run, Hs. cbn [snd].
      rewrite stored_eq. cbn [taskdata].
      rewrite <- Hid at 1.
      rewrite <- (id_setattr task_data TaskData.f_status (VStr states.QUEUED))
        at 1.
      apply upsert_head. }
    split; [|split; [exact Hq|split; [|split]]].
    + rewrite put_task_run, Hs. cbn [fst]. now rewrite id_setattr, Hid.
    + rewrite Hq. cbn [fmap option_fmap option_map]. f_equal.
      apply (getattr_setattr_eq _ TaskData.f_status).
    + intros queued Hqueued. rewrite Hq in Hqueued.
      injection Hqueued as <-.
      split; [now rewrite id_setattr|]. split; [apply meta_setattr|].
      intros f Hf. apply getattr_setattr_ne. congruence.
    + subst st'. rewrite put_task_run, Hs.
      cbn [snd queue watched_tasks trace]. rewrite id_setattr, Hid.
      split; [|now repeat split].
      intros k Hk. rewrite !stored_eq. cbn [taskdata].
      rewrite upsert_other; [reflexivity|]. now rewrite id_setattr, Hid.
  - intros Hs. now rewrite put_task_run, Hs.
Qed.

(** ** The status of a record over the calls *)

(** C1, as the code has it: [save_task] never refuses a status.  For a
    stored record in any status, SUCCESS, FAILURE and REVOKED included, a
    save that supplies a status returns the task id and the record it
    writes has the supplied status; this is the record under the task id
    unless the save also gives the record another id.  [put_task] on a
    stored record in any status leaves it with the status QUEUED. *)
Theorem status_is_overwritten task_id st task_data :
  stored st task_id = Some task_data ->
  (forall params v,
     NoDup (kwarg_name <$> params) ->
     kw_field TaskData.f_status v ∈ params ->
     let st' := snd (TaskBackend.save_task task_id params st) in
     fst (TaskBackend.save_task task_id params st)
     = TaskBackend.returned task_id /\
     (exists written,
        stored st' (TaskData.id written) = Some written /\
        TaskData.status written = v) /\
     (("id" ∉ kwarg_name <$> params) ->
      TaskData.status <$> stored st' task_id = Some v)) /\
  fst (TaskBackend.put_task task_id st) = Some task_id /\
  TaskData.status <$> stored (snd (TaskBackend.put_task task_id st)) task_id
  = Some (VStr states.QUEUED).
Proof.
  intros Hs. split; [|split].
  - intros params v Hnd Hin st'.
    pose proof (saved_existing st task_id params task_data Hs) as Hw.
    pose proof (save_task_stored _ _ _ _ Hw) as Hst. fold st' in Hst.
    assert (TaskData.status (update_fields task_data params) = v) as Hv.
    { apply (fold_getattr_supplied update_field update_field_field
               update_field_other _ _ TaskData.f_status); assumption. }
    split; [now rewrite save_task_outcome, Hw|]. split.
    + now exists (update_fields task_data params).
    + intros Hid. rewrite (saved_id _ _ _ _ Hw Hid) in Hst.
      rewrite Hst. cbn. now rewrite Hv.
  - rewrite put_task_run, Hs. cbn [fst]. rewrite id_setattr.
    now rewrite (stored_id _ _ _ Hs).
  - rewrite put_task_run, Hs. cbn [snd]. rewrite stored_eq. cbn [taskdata].
    rewrite <- (stored_id _ _ _ Hs) at 1.
    rewrite <- (id_setattr task_data TaskData.f_status (VStr states.QUEUED))
      at 1.
    rewrite upsert_head. simpl. f_equal.
    apply (getattr_setattr_eq _ TaskData.f_status).
Qed.

(** ** Finishing waiters *)

Section Waiters.

Implicit Types (w : TaskCallbacks.t) (task : Task.t) (k : string).

Lemma finish_pending_same w task :
  TaskCallbacks.pending (TaskCallbacks.finish w task) !! Task.id task = None.
Proof.
  unfold TaskCallbacks.finish.
  destruct (TaskCallbacks.pending w !! Task.id task) eqn:E; simpl.
  - apply lookup_delete_eq.
  - exact E.
Qed.

Lemma finish_pending_other w task k :
  k <> Task.id task ->
  TaskCallbacks.pending (TaskCallbacks.finish w task) !! k
  = TaskCallbacks.pending w !! k.
Proof.
  intros Hk. unfold TaskCallbacks.finish.
  destruct (TaskCallbacks.pending w !! Task.id task); simpl.
  - apply lookup_delete_ne. congruence.
  - reflexivity.
Qed.

Lemma finish_pending_none w task k :
  TaskCallbacks.pending w !! k = None ->
  TaskCallbacks.pending (TaskCallbacks.finish w task) !! k = None.
Proof.
  intros Hk. destruct (decide (k = Task.id task)) as [->|Hne].
  - apply finish_pending_same.
  - now rewrite finish_pending_other.
Qed.

Lemma finish_fulfils w task h :
  h ∈ TaskCallbacks.waiters w (Task.id task) ->
  (h, task) ∈ TaskCallbacks.fulfilled (TaskCallbacks.finish w task).
Proof.
  unfold TaskCallbacks.waiters, TaskCallbacks.finish.
  destruct (TaskCallbacks.pending w !! Task.id task) as [hs|]; simpl.
  - intros Hh. apply elem_of_app. right.
    apply (list_elem_of_fmap_2 (fun h => (h, task))), Hh.
  - intros Hh. now apply elem_of_nil in Hh.
Qed.

Lemma finish_fulfilled_mono w task x :
  x ∈ TaskCallbacks.fulfilled w ->
  x ∈ TaskCallbacks.fulfilled (TaskCallbacks.finish w task).
Proof.
  unfold TaskCallbacks.finish.
  destruct (TaskCallbacks.pending w !! Task.id task); simpl.
  - intros Hx. apply elem_of_app. now left.
  - trivial.
Qed.

Lemma waiters_none w k :
  TaskCallbacks.pending w !! k = None -> TaskCallbacks.waiters w k = [].
Proof. unfold TaskCallbacks.waiters. now intros ->. Qed.

Lemma finish_each_pending_none tasks w k :
  TaskCallbacks.pending w !! k = None ->
  TaskCallbacks.pending (finish_each w tasks) !! k = None.
Proof.
  revert w. induction tasks as [|t tasks IH]; intros w Hk; simpl.
  - exact Hk.
  - apply IH. now apply finish_pending_none.
Qed.

Lemma finish_each_fulfilled_mono tasks w x :
  x ∈ TaskCallbacks.fulfilled w ->
  x ∈ TaskCallbacks.fulfilled (finish_each w tasks).
Proof.
  revert w. induction tasks as [|t tasks IH]; intros w Hx; simpl.
  - exact Hx.
  - apply IH. now apply finish_fulfilled_mono.
Qed.

Lemma finish_each_pending tasks w r :
  r ∈ tasks ->
  TaskCallbacks.pending (finish_each w tasks) !! TaskData.id r = None.
Proof.
  revert w. induction tasks as [|t tasks IH]; intros w Hr.
  - now apply elem_of_nil in Hr.
  - apply elem_of_cons in Hr as [->|Hr]; simpl.
    + apply finish_each_pending_none.
      rewrite <- as_task_id. apply finish_pending_same.
    + now apply IH.
Qed.

Lemma finish_each_fulfils tasks w r h :
  r ∈ tasks ->
  h ∈ TaskCallbacks.waiters w (TaskData.id r) ->
  exists task,
    Task.id task = TaskData.id r /\
    (h, task) ∈ TaskCallbacks.fulfilled (finish_each w tasks).
Proof.
  revert w. induction tasks as [|t tasks IH]; intros w Hr Hh.
  - now apply elem_of_nil in Hr.
  - simpl. destruct (decide (TaskData.id t = TaskData.id r)) as [Heq|Hne].
    + exists (TaskData.as_task t). split; [now rewrite as_task_id|].
      apply finish_each_fulfilled_mono, finish_fulfils.
      now rewrite as_task_id, Heq.
    + apply elem_of_cons in Hr as [->|Hr]; [now destruct Hne|].
      apply IH; [exact Hr|].
      unfold TaskCallbacks.waiters in *.
      rewrite finish_pending_other; [exact Hh|].
      rewrite as_task_id. congruence.
Qed.

End Waiters.

(** ** The completion channel *)

Lemma write_run task_id st :
  TaskBackend.write task_id st
  = (tt,
     mk_backend (taskdata st) (queue st)
       match stored st task_id with
       | Some task_data =>
           TaskCallbacks.finish (watched_tasks st) (TaskData.as_task task_data)
       | None => watched_tasks st
       end
       (trace st ++ [ev_filter_all (id_is task_id)])).
Proof.
  unfold TaskBackend.write, bind. rewrite _get_task_run. cbn [fst snd].
  now destruct (stored st task_id).
Qed.

(** ** Deleting, with ids *)

Lemma finish_all_run tasks deleted st :
  TaskBackend.finish_all tasks deleted st
  = (deleted + length tasks,
     mk_backend (taskdata st) (queue st)
                (finish_each (watched_tasks st) tasks) (trace st)).
Proof.
  revert deleted st. induction tasks as [|t tasks IH]; intros deleted st.
  - simpl. unfold ret. rewrite Nat.add_0_r. now destruct st.
  - cbn [TaskBackend.finish_all]. unfold bind. rewrite IH.
    cbn [fst snd with_watched_tasks taskdata queue watched_tasks trace
         length finish_each foldl].
    f_equal. lia.
Qed.

Lemma delete_tasks_run ids st :
  TaskBackend.truthy_ids (Some ids) = true ->
  TaskBackend.delete_tasks (Some ids) st
  = (length (List.filter (matches (id_in ids)) (taskdata st)),
     mk_backend
       (List.filter (fun r => negb (matches (id_in ids) r)) (taskdata st))
       (queue st)
       (finish_each (watched_tasks st)
                    (List.filter (matches (id_in ids)) (taskdata st)))
       (trace st ++ [ev_filter_all (id_in ids);
                     ev_filter_delete (id_in ids)])).
Proof.
  intros Hids. unfold TaskBackend.delete_tasks. rewrite Hids.
  unfold bind. rewrite finish_all_run.
  cbn -[List.filter matches finish_each]. rewrite <- app_assoc. reflexivity.
Qed.

(** C7: [delete_tasks] with ids returns the number of records it has
    removed from the store, which are the stored records with one of the
    ids; for each of them no waiter is left registered under its id, and
    every handle that was waiting for it is fulfilled. *)
Theorem delete_tasks_count_and_waiters ids st :
  TaskBackend.truthy_ids (Some ids) = true ->
  let deleted := fst (TaskBackend.delete_tasks (Some ids) st) in
  let st' := snd (TaskBackend.delete_tasks (Some ids) st) in
  let removed := List.filter (matches (id_in ids)) (taskdata st) in
  deleted = length removed /\
  taskdata st'
  = List.filter (fun r => negb (matches (id_in ids) r)) (taskdata st) /\
  length (taskdata st) = length (taskdata st') + deleted /\
  (forall r, r ∈ removed ->
     stored st' (TaskData.id r) = None /\
     TaskCallbacks.waiters (watched_tasks st') (TaskData.id r) = [] /\
     forall h, h ∈ TaskCallbacks.waiters (watched_tasks st) (TaskData.id r) ->
       exists task,
         Task.id task = TaskData.id r /\
         (h, task) ∈ TaskCallbacks.fulfilled (watched_tasks st')).
Proof.
  intros Hids deleted st' removed. subst deleted st'.
  rewrite delete_tasks_run by exact Hids.
  cbn [fst snd taskdata watched_tasks]. fold removed.
  split; [reflexivity|]. split; [reflexivity|]. split.
  - subst removed.
    rewrite <- (List.filter_length (matches (id_in ids)) (taskdata st)). lia.
  - intros r Hr. split; [|split].
    + rewrite stored_eq. cbn [taskdata].
      destruct (head _) as [x|] eqn:Hx; [|reflexivity]. exfalso.
      apply head_Some_elem_of in Hx.
      apply list_elem_of_In, List.filter_In in Hx as [Hin Hid].
      apply List.filter_In in Hin as [_ Hdel].
      apply has_id_true in Hid.
      subst removed. apply list_elem_of_In, List.filter_In in Hr as [_ Hm].
      simpl in Hdel, Hm. rewrite Hid, Hm in Hdel. discriminate.
    + apply waiters_none. now apply finish_each_pending.
    + intros h Hh. now apply finish_each_fulfils.
Qed.

(** ** Dequeueing a task *)

Lemma truthy_Some task_id :
  TaskBackend.truthy (Some task_id) = true <-> task_id <> "".
Proof.
  simpl. rewrite negb_true_iff. apply String.eqb_neq.
Qed.

Lemma get_task_explicit_run task_id when_done timeout st :
  task_id <> "" ->
  TaskBackend.get_task (Some task_id) when_done timeout st
  = load task_id when_done st.
Proof.
  intros Hid. apply truthy_Some in Hid.
  unfold TaskBackend.get_task, load, bind. rewrite Hid.
  cbn [negb ret fst snd]. rewrite Hid.
  change (default "" (Some task_id)) with task_id.
  rewrite _get_task_run. cbn [fst snd].
  destruct (stored st task_id) as [task_data|]; [|reflexivity].
  destruct when_done; reflexivity.
Qed.

Lemma get_task_pop_run task_id when_done timeout st :
  TaskBackend.truthy task_id = false ->
  TaskBackend.get_task task_id when_done timeout st
  = let tr := trace st ++ [ev_queue_block_pop_front timeout] in
    match queue st with
    | [] =>
        (TaskBackend.absent,
         mk_backend (taskdata st) [] (watched_tasks st) tr)
    | popped :: rest =>
        let st1 := mk_backend (taskdata st) rest (watched_tasks st) tr in
        if String.eqb popped "" then (TaskBackend.absent, st1)
        else load popped when_done st1
    end.
Proof.
  intros Hid. unfold TaskBackend.get_task, bind. rewrite Hid.
  cbn [negb]. unfold task_manager.queue_block_pop_front, bind.
  cbn [emit fst snd taskdata queue watched_tasks trace].
  destruct (queue st) as [|popped rest] eqn:Hq.
  - cbn [fst snd TaskBackend.truthy ret]. reflexivity.
  - cbn [fst snd TaskBackend.truthy].
    destruct (String.eqb popped "") eqn:Hp; cbn [negb ret]; [reflexivity|].
    change (default "" (Some popped)) with popped.
    rewrite _get_task_run. unfold load. cbn [fst snd].
    cbn [taskdata queue watched_tasks trace].
    destruct (stored _ popped) as [task_data|]; [|reflexivity].
    destruct when_done; reflexivity.
Qed.

Lemma load_loads_record task_id when_done st :
  trace (snd (load task_id when_done st))
  = trace st ++ [ev_filter_all (id_is task_id)] /\
  loads_record task_id when_done st
    (fst (load task_id when_done st)) (snd (load task_id when_done st)).
Proof.
  unfold load, loads_record.
  destruct (stored st task_id) as [task_data|] eqn:Hs;
    [|cbn [fst snd taskdata queue watched_tasks trace]; auto].
  destruct when_done;
    [|cbn [fst snd taskdata queue watched_tasks trace]; auto].
  cbn [fst snd taskdata queue watched_tasks trace].
  split; [reflexivity|]. split; [reflexivity|]. split; [reflexivity|].
  unfold TaskCallbacks.when_done. rewrite as_task_done.
  destruct (states.is_ready (TaskData.status task_data));
    [cbn [fst snd]; auto|].
  cbn [fst snd]. rewrite as_task_id, (stored_id _ _ _ Hs).
  exists (TaskCallbacks.issued (watched_tasks st)).
  split; [reflexivity|].
  assert (TaskCallbacks.waiters
            (TaskCallbacks.mk
               (<[task_id := TaskCallbacks.waiters (watched_tasks st) task_id
                             ++ [TaskCallbacks.issued (watched_tasks st)]]>
                  (TaskCallbacks.pending (watched_tasks st)))
               (TaskCallbacks.fulfilled (watched_tasks st))
               (S (TaskCallbacks.issued (watched_tasks st)))) task_id
          = TaskCallbacks.waiters (watched_tasks st) task_id
            ++ [TaskCallbacks.issued (watched_tasks st)]) as Hw.
  { unfold TaskCallbacks.waiters at 1. cbn [TaskCallbacks.pending].
    now rewrite lookup_insert_eq. }
  split; [exact Hw|].
  intros done_task <- _. apply finish_fulfils. rewrite Hw.
  apply elem_of_app. right. apply list_elem_of_here.
Qed.


(** C9, as the code has it: [get_task] with a task id that is not empty
    never pops the ready queue and does not use the timeout: the queue,
    and with it [num_tasks], is as before, the only interaction is the
    query for the record, and the call is the same for every timeout. *)
Theorem get_task_explicit_keeps_queue task_id when_done timeout st :
  task_id <> "" ->
  let st' := snd (TaskBackend.get_task (Some task_id) when_done timeout st) in
  queue st' = queue st /\
  fst (TaskBackend.num_tasks st') = fst (TaskBackend.num_tasks st) /\
  trace st' = trace st ++ [ev_filter_all (id_is task_id)] /\
  forall timeout',
    TaskBackend.get_task (Some task_id) when_done timeout' st
    = TaskBackend.get_task (Some task_id) when_done timeout st.
Proof.
  intros Hne st'. subst st'. rewrite get_task_explicit_run by exact Hne.
  destruct (load_loads_record task_id when_done st) as [Htr (_ & Hq & _)].
  split; [exact Hq|]. split; [|split].
  - cbn. now rewrite Hq.
  - exact Htr.
  - intros timeout'. now rewrite get_task_explicit_run.
Qed.

(** ** The properties on the sample states *)

(** C1: t1 is stored with the status SUCCESS; a save with status QUEUED
    returns the id like any other save and the stored status is then
    QUEUED, two positions back in the state machine, and [put_task] does
    the same. *)
Lemma status_moves_backward :
  let st := one_task states.SUCCESS [] in
  let saved_st := snd (TaskBackend.save_task "t1" requeue st) in
  let queued_st := snd (TaskBackend.put_task "t1" st) in
  TaskData.status <$> stored st "t1" = Some (VStr "SUCCESS") /\
  states.is_ready (VStr "SUCCESS") = true /\
  fst (TaskBackend.save_task "t1" requeue st) = TaskBackend.returned "t1" /\
  TaskData.status <$> stored saved_st "t1" = Some (VStr "QUEUED") /\
  fst (TaskBackend.put_task "t1" st) = Some "t1" /\
  TaskData.status <$> stored queued_st "t1" = Some (VStr "QUEUED") /\
  states.rank (VStr "SUCCESS") = Some 2 /\
  states.rank (VStr "QUEUED") = Some 0.
Proof. vm_compute. repeat split. Qed.

Lemma status_is_overwritten_witness :
  stored (one_task states.SUCCESS []) "t1"
  = Some (task_record "t1" states.SUCCESS) /\
  NoDup (kwarg_name <$> requeue) /\
  kw_field TaskData.f_status (VStr states.QUEUED) ∈ requeue /\
  ("id" ∉ kwarg_name <$> requeue) /\
  TaskData.status
    <$> stored (snd (TaskBackend.save_task "t1" requeue
                       (one_task states.SUCCESS []))) "t1"
  = Some (VStr states.QUEUED).
Proof.
  assert (NoDup (kwarg_name <$> requeue)) as Hnd
    by (apply NoDup_singleton).
  assert (kw_field TaskData.f_status (VStr states.QUEUED) ∈ requeue) as Hin
    by (apply list_elem_of_here).
  assert ("id" ∉ kwarg_name <$> requeue) as Hid.
  { intros H. apply list_elem_of_singleton in H. discriminate H. }
  split; [reflexivity|]. split; [exact Hnd|]. split; [exact Hin|].
  split; [exact Hid|].
  exact (proj2 (proj2 (proj1 (status_is_overwritten "t1"
                                (one_task states.SUCCESS [])
                                (task_record "t1" states.SUCCESS) eq_refl)
                         requeue (VStr states.QUEUED) Hnd Hin)) Hid).
Defined.

(** C3: on a state that stores t1 only, a save for t2 with a keyword that
    names no field raises in the constructor of the record: it returns
    no id and t2 has no record afterwards.  A save for t1 with a keyword
    that names no field followed by a meta mapping returns t1, and the
    record it has saved has no entry for the keyword in its meta
    mapping. *)
Lemma save_task_unrecognized_field :
  let st := one_task states.QUEUED [] in
  let created := TaskBackend.save_task "t2" report_started st in
  let updated := TaskBackend.save_task "t1" worker_then_meta st in
  stored st "t2" = None /\
  fst created = TaskBackend.raised ValueError /\
  stored (snd created) "t2" = None /\
  taskdata (snd created) = taskdata st /\
  stored st "t1" = Some (task_record "t1" states.QUEUED) /\
  fst updated = TaskBackend.returned "t1" /\
  TaskData.meta <$> stored (snd updated) "t1" = Some ∅.
Proof. vm_compute. repeat split. Qed.

Lemma save_task_sets_fields_witness :
  NoDup (kwarg_name <$> report_started) /\
  stored (one_task states.QUEUED []) "t1"
  = Some (task_record "t1" states.QUEUED) /\
  fst (TaskBackend.save_task "t1" report_started (one_task states.QUEUED []))
  = TaskBackend.returned "t1" /\
  NoDup (kwarg_name <$> report_success) /\
  stored (one_task states.QUEUED []) "t2" = None /\
  forallb constructor_keyword report_success = true /\
  fst (TaskBackend.save_task "t2" report_success (one_task states.QUEUED []))
  = TaskBackend.returned "t2".
Proof.
  assert (NoDup (kwarg_name <$> report_started)) as Hnd.
  { apply NoDup_cons. split; [|apply NoDup_singleton].
    intros Hin. apply list_elem_of_singleton in Hin. discriminate Hin. }
  assert (NoDup (kwarg_name <$> report_success)) as Hnd2.
  { apply NoDup_cons. split; [|apply NoDup_singleton].
    intros Hin. apply list_elem_of_singleton in Hin. discriminate Hin. }
  split; [exact Hnd|]. split; [reflexivity|]. split.
  { exact (proj1 (proj1 (save_task_sets_fields "t1" report_started
                           (one_task states.QUEUED []) Hnd)
                    (task_record "t1" states.QUEUED) eq_refl)). }
  split; [exact Hnd2|]. split; [reflexivity|]. split; [reflexivity|].
  exact (proj1 (proj2 (save_task_sets_fields "t2" report_success
                         (one_task states.QUEUED []) Hnd2)
                  eq_refl eq_refl)).
Defined.

Lemma put_task_enqueues_witness :
  stored (one_task states.STARTED ["t0"]) "t1"
  = Some (task_record "t1" states.STARTED) /\
  stored (one_task states.STARTED ["t0"]) "t2" = None /\
  TaskData.status
    <$> stored (snd (TaskBackend.put_task "t1"
                       (one_task states.STARTED ["t0"]))) "t1"
  = Some (VStr states.QUEUED) /\
  queue (snd (TaskBackend.put_task "t1" (one_task states.STARTED ["t0"])))
  = ["t0"; "t1"] /\
  fst (TaskBackend.put_task "t2" (one_task states.STARTED ["t0"])) = None.
Proof.
  split; [reflexivity|]. split; [reflexivity|]. split; [|split].
  - exact (proj1 (proj2 (proj2
             (proj1 (put_task_enqueues "t1" (one_task states.STARTED ["t0"]))
                (task_record "t1" states.STARTED) eq_refl)))).
  - exact (proj1 (proj2 (proj2 (proj2 (proj2 (proj2
             (proj1 (put_task_enqueues "t1" (one_task states.STARTED ["t0"]))
                (task_record "t1" states.STARTED) eq_refl))))))).
  - exact (f_equal fst
             (proj2 (put_task_enqueues "t2" (one_task states.STARTED ["t0"]))
                eq_refl)).
Defined.



Lemma delete_tasks_count_and_waiters_witness :
  TaskBackend.truthy_ids (Some ["t1"; "t9"]) = true /\
  fst (TaskBackend.delete_tasks (Some ["t1"; "t9"]) observed) = 1.
Proof.
  split; [reflexivity|].
  exact (proj1 (delete_tasks_count_and_waiters ["t1"; "t9"] observed eq_refl)).
Defined.

Lemma delete_tasks_without_ids_witness :
  TaskBackend.truthy_ids None = false /\
  TaskBackend.truthy_ids (Some []) = false /\
  TaskBackend.delete_tasks None observed = (0, observed) /\
  TaskBackend.delete_tasks (Some []) observed = (0, observed).
Proof.
  split; [reflexivity|]. split; [reflexivity|]. split.
  - exact (delete_tasks_without_ids None observed eq_refl).
  - exact (delete_tasks_without_ids (Some []) observed eq_refl).
Defined.

(** C9: two tasks wait in the ready queue; [get_task] called with the
    empty string as the task id pops the first of them, and [num_tasks]
    goes from 2 to 1. *)
Lemma get_task_empty_id_pops :
  let st := one_task states.QUEUED ["t1"; "t2"] in
  let st' := snd (TaskBackend.get_task (Some "") true 5 st) in
  queue st = ["t1"; "t2"] /\
  queue st' = ["t2"] /\
  fst (TaskBackend.num_tasks st) = 2 /\
  fst (TaskBackend.num_tasks st') = 1 /\
  trace st' = [ev_queue_block_pop_front 5; ev_filter_all (id_is "t1")].
Proof. vm_compute. repeat split. Qed.

Lemma get_task_explicit_keeps_queue_witness :
  "t1" <> "" /\
  queue (snd (TaskBackend.get_task (Some "t1") true 5
                (one_task states.QUEUED ["t1"; "t2"])))
  = ["t1"; "t2"].
Proof.
  assert ("t1" <> "") as Hne by discriminate.
  split; [exact Hne|].
  exact (proj1 (get_task_explicit_keeps_queue "t1" true 5
                  (one_task states.QUEUED ["t1"; "t2"]) Hne)).
Defined.

(** ** Tasks as the callers see them *)

(** X1: in the task built from a record every scalar field is a parameter
    under its name, with the value of the field, also when the meta
    mapping has a key of that name; a key of the meta mapping that is not
    the name of a scalar field or of the meta field is a parameter with
    its meta value; the id of the task is the id of the record. *)
Theorem as_task_params task_data :
  Task.id (TaskData.as_task task_data) = TaskData.id task_data /\
  (forall f,
     Task.params (TaskData.as_task task_data) !! TaskData.field_name f
     = Some (TaskData.getattr task_data f)) /\
  (forall k,
     (forall f, k <> TaskData.field_name f) -> k <> "meta" ->
     Task.params (TaskData.as_task task_data) !! k
     = TaskData.meta task_data !! k).
Proof.
  split; [reflexivity|]. split.
  - intros f. unfold TaskData.as_task. cbn [Task.params].
    cbn [foldl TaskData.scalarfields TaskData.field_name TaskData.getattr].
    destruct f; cbn [TaskData.field_name TaskData.getattr];
      repeat (rewrite lookup_insert_ne by discriminate);
      apply lookup_insert_eq.
  - intros k Hk Hm. unfold TaskData.as_task. cbn [Task.params].
    cbn [foldl TaskData.scalarfields].
    rewrite lookup_insert_ne by congruence.
    pose proof (Hk TaskData.f_name). pose proof (Hk TaskData.f_status).
    pose proof (Hk TaskData.f_args). pose proof (Hk TaskData.f_kwargs).
    pose proof (Hk TaskData.f_result). pose proof (Hk TaskData.f_from_task).
    pose proof (Hk TaskData.f_time_executed).
    pose proof (Hk TaskData.f_time_started).
    pose proof (Hk TaskData.f_time_ended). pose proof (Hk TaskData.f_expiry).
    repeat (rewrite lookup_insert_ne by congruence). reflexivity.
Qed.

Lemma as_task_params_witness :
  (forall f, "worker" <> TaskData.field_name f) /\
  "worker" <> "meta" /\
  Task.params
    (TaskData.as_task
       (TaskData.set_meta (task_record "t1" states.QUEUED)
                          {["worker" := VStr "w1"]})) !! "worker"
  = Some (VStr "w1").
Proof.
  assert (forall f, "worker" <> TaskData.field_name f) as Hf
    by (intros f; destruct f; discriminate).
  assert ("worker" <> "meta") as Hm by discriminate.
  split; [exact Hf|]. split; [exact Hm|].
  exact (proj2 (proj2 (as_task_params
                         (TaskData.set_meta (task_record "t1" states.QUEUED)
                                            {["worker" := VStr "w1"]})))
           "worker" Hf Hm).
Defined.

(** ** Saving, next to the other records and calls *)

Lemma update_fields_id_cases params task_data :
  TaskData.id (update_fields task_data params) = TaskData.id task_data \/
  exists i, kw_id i ∈ params /\
            TaskData.id (update_fields task_data params) = i.
Proof.
  unfold update_fields. revert task_data.
  induction params as [|kw params IH]; intros td; simpl; [now left|].
  destruct (IH (update_field td kw)) as [Hsame|(i & Hin & Hi)].
  - rewrite Hsame. destruct kw as [f v|m|k v Hk|i|q].
    + left. rewrite update_field_field. apply id_setattr.
    + left. rewrite update_field_meta. apply id_set_meta.
    + left. rewrite update_field_extra. apply id_set_meta.
    + right. exists i. split; [apply list_elem_of_here|].
      rewrite update_field_id_keyword. apply id_set_id.
    + left. now rewrite update_field_queue.
  - right. exists i. split; [|exact Hi]. now apply elem_of_cons; right.
Qed.

(** X2: a save changes no record other than the one under its task id
    and, when an id is among the fields, the one under that id: the
    record stored under any other id is the same before and after. *)
Theorem save_task_other_records task_id params st k :
  k <> task_id ->
  (forall i, kw_id i ∈ params -> k <> i) ->
  stored (snd (TaskBackend.save_task task_id params st)) k = stored st k.
Proof.
  intros Hk Hids. rewrite save_task_run.
  destruct (saved st task_id params) as [e|written] eqn:Hw;
    [reflexivity|].
  cbn [snd]. rewrite !stored_eq. cbn [taskdata].
  rewrite upsert_other; [reflexivity|].
  unfold saved in Hw. destruct (stored st task_id) as [task_data|] eqn:Hs.
  - injection Hw as <-.
    destruct (update_fields_id_cases params task_data)
      as [Hsame|(i & Hin & Hi)].
    + rewrite Hsame, (stored_id _ _ _ Hs). exact Hk.
    + rewrite Hi. now apply Hids.
  - apply init_id in Hw as [-> _]. exact Hk.
Qed.

Lemma save_task_other_records_witness :
  "t1" <> "t2" /\
  (forall i, kw_id i ∈ report_success -> "t1" <> i) /\
  stored (snd (TaskBackend.save_task "t2" report_success
                 (one_task states.QUEUED []))) "t1"
  = Some (task_record "t1" states.QUEUED).
Proof.
  assert ("t1" <> "t2") as Hne by discriminate.
  assert (forall i, kw_id i ∈ report_success -> "t1" <> i) as Hids.
  { intros i Hin. apply elem_of_cons in Hin as [Hin|Hin]; [discriminate|].
    apply list_elem_of_singleton in Hin. discriminate Hin. }
  split; [exact Hne|]. split; [exact Hids|].
  exact (save_task_other_records "t2" report_success
           (one_task states.QUEUED []) "t1" Hne Hids).
Defined.

(** X11: when a save that gives the record no other id has returned, the
    id can be enqueued right after it: [put_task] finds the record the
    save has written, returns the id and leaves that record with the
    status QUEUED and its other fields, and the id is at the back of the
    queue. *)
Theorem save_task_then_put_task task_id params st :
  fst (TaskBackend.save_task task_id params st)
  = TaskBackend.returned task_id ->
  ("id" ∉ kwarg_name <$> params) ->
  let st1 := snd (TaskBackend.save_task task_id params st) in
  let st2 := snd (TaskBackend.put_task task_id st1) in
  fst (TaskBackend.put_task task_id st1) = Some task_id /\
  (exists written,
     stored st1 task_id = Some written /\
     stored st2 task_id
     = Some (TaskData.setattr written TaskData.f_status
                              (VStr states.QUEUED)) /\
     forall queued, stored st2 task_id = Some queued ->
       TaskData.status queued = VStr states.QUEUED /\
       TaskData.meta queued = TaskData.meta written /\
       forall f, f <> TaskData.f_status ->
         TaskData.getattr queued f = TaskData.getattr written f) /\
  queue st2 = queue st ++ [task_id].
Proof.
  intros Hret Hid st1 st2. subst st2.
  rewrite save_task_outcome in Hret.
  destruct (saved st task_id params) as [e|written] eqn:Hw;
    [discriminate|].
  pose proof (saved_id _ _ _ _ Hw Hid) as Hwid.
  pose proof (save_task_stored _ _ _ _ Hw) as Hs.
  fold st1 in Hs. rewrite Hwid in Hs.
  assert (stored (snd (TaskBackend.put_task task_id st1)) task_id
          = Some (TaskData.setattr written TaskData.f_status
                                   (VStr states.QUEUED))) as Hq.
  { rewrite put_task_run, Hs. cbn [snd]. rewrite stored_eq. cbn [taskdata].
    rewrite <- Hwid at 1.
    rewrite <- (id_setattr written TaskData.f_status (VStr states.QUEUED))
      at 1.
    apply upsert_head. }
  split; [|split].
  - rewrite put_task_run, Hs. cbn [fst]. now rewrite id_setattr, Hwid.
  - exists written. split; [exact Hs|]. split; [exact Hq|].
    intros queued Hqueued. rewrite Hq in Hqueued. injection Hqueued as <-.
    split; [apply (getattr_setattr_eq _ TaskData.f_status)|].
    split; [apply meta_setattr|].
    intros f Hf. apply getattr_setattr_ne. congruence.
  - rewrite put_task_run, Hs. cbn [snd queue]. rewrite id_setattr, Hwid.
    subst st1. rewrite save_task_run, Hw. reflexivity.
Qed.

Lemma save_task_then_put_task_witness :
  fst (TaskBackend.save_task "t2" report_success (one_task states.QUEUED []))
  = TaskBackend.returned "t2" /\
  ("id" ∉ kwarg_name <$> report_success) /\
  queue (snd (TaskBackend.put_task "t2"
                (snd (TaskBackend.save_task "t2" report_success
                        (one_task states.QUEUED [])))))
  = ["t2"].
Proof.
  assert ("id" ∉ kwarg_name <$> report_success) as Hid.
  { intros Hin. apply elem_of_cons in Hin as [Hin|Hin]; [discriminate|].
    apply list_elem_of_singleton in Hin. discriminate Hin. }
  split; [reflexivity|]. split; [exact Hid|].
  exact (proj2 (proj2 (save_task_then_put_task "t2" report_success
                         (one_task states.QUEUED []) eq_refl Hid))).
Defined.

(** X5: [put_task] makes [num_tasks] one larger when the id has a record,
    and leaves it as it is otherwise. *)
Theorem put_task_num_tasks task_id st :
  fst (TaskBackend.num_tasks (snd (TaskBackend.put_task task_id st)))
  = fst (TaskBackend.num_tasks st)
    + match stored st task_id with Some _ => 1 | None => 0 end.
Proof.
  rewrite put_task_run. destruct (stored st task_id) as [task_data|]; cbn.
  - now rewrite length_app.
  - now rewrite Nat.add_0_r.
Qed.

(** X12: [get_task], with or without an id, never writes to the store:
    the records are as before, none of its interactions is a write, and
    the ready queue is as before or has lost its first id. *)
Theorem get_task_reads_only task_id when_done timeout st :
  let st' := snd (TaskBackend.get_task task_id when_done timeout st) in
  taskdata st' = taskdata st /\
  (queue st' = queue st \/ exists popped, queue st = popped :: queue st') /\
  exists events,
    trace st' = trace st ++ events /\
    forallb (fun e => negb (is_store_write e)) events = true.
Proof.
  intros st'. subst st'.
  destruct (TaskBackend.truthy task_id) eqn:Ht.
  - destruct task_id as [explicit|]; [|discriminate].
    rewrite get_task_explicit_run by now apply truthy_Some.
    destruct (load_loads_record explicit when_done st) as [Htr (Ht' & Hq & _)].
    split; [exact Ht'|]. split; [now left|].
    eexists. split; [exact Htr|reflexivity].
  - rewrite get_task_pop_run by exact Ht.
    destruct (queue st) as [|popped rest] eqn:Hq.
    + cbn [snd taskdata queue trace]. split; [reflexivity|].
      split; [now left|]. eexists. split; reflexivity.
    + cbv zeta. destruct (String.eqb popped "").
      * cbn [snd taskdata queue trace]. split; [reflexivity|].
        split; [right; now exists popped|]. eexists. split; reflexivity.
      * destruct (load_loads_record popped when_done
                    (mk_backend (taskdata st) rest (watched_tasks st)
                       (trace st ++ [ev_queue_block_pop_front timeout])))
          as [Htr (Ht' & Hq' & _)].
        split; [exact Ht'|]. split.
        { right. exists popped. now rewrite Hq'. }
        eexists. split.
        { rewrite Htr. cbn [trace]. rewrite <- app_assoc. reflexivity. }
        reflexivity.
Qed.

(** ** The order and the repetition of the fields *)

Lemma field_name_inj f g :
  TaskData.field_name f = TaskData.field_name g -> f = g.
Proof. destruct f, g; simpl; intros H; try reflexivity; discriminate H. Qed.

Lemma field_eq_or_not (f g : TaskData.field) : f = g \/ f <> g.
Proof.
  destruct (decide (TaskData.field_name f = TaskData.field_name g)) as [H|H].
  - left. now apply field_name_inj.
  - right. congruence.
Qed.

Lemma task_data_ext (a b : TaskData.t) :
  TaskData.id a = TaskData.id b ->
  (forall f, TaskData.getattr a f = TaskData.getattr b f) ->
  TaskData.meta a = TaskData.meta b ->
  a = b.
Proof.
  intros Hid Hf Hm.
  pose proof (Hf TaskData.f_name). pose proof (Hf TaskData.f_status).
  pose proof (Hf TaskData.f_args). pose proof (Hf TaskData.f_kwargs).
  pose proof (Hf TaskData.f_result). pose proof (Hf TaskData.f_from_task).
  pose proof (Hf TaskData.f_time_executed).
  pose proof (Hf TaskData.f_time_started).
  pose proof (Hf TaskData.f_time_ended). pose proof (Hf TaskData.f_expiry).
  destruct a, b; simpl in *. congruence.
Qed.

Lemma update_field_id_of task_data kw :
  TaskData.id (update_field task_data kw)
  = match kw with kw_id i => i | _ => TaskData.id task_data end.
Proof.
  destruct kw as [f v|m|k v Hk|i|q].
  - rewrite update_field_field. apply id_setattr.
  - rewrite update_field_meta. apply id_set_meta.
  - rewrite update_field_extra. apply id_set_meta.
  - rewrite update_field_id_keyword. apply id_set_id.
  - now rewrite update_field_queue.
Qed.

Lemma update_field_meta_of task_data kw :
  TaskData.meta (update_field task_data kw)
  = match kw with
    | kw_meta m => m
    | kw_extra k v _ => <[k := v]> (TaskData.meta task_data)
    | _ => TaskData.meta task_data
    end.
Proof.
  destruct kw as [f v|m|k v Hk|i|q].
  - rewrite update_field_field. apply meta_setattr.
  - rewrite update_field_meta. apply meta_set_meta.
  - rewrite update_field_extra. apply meta_set_meta.
  - rewrite update_field_id_keyword. apply meta_set_id.
  - now rewrite update_field_queue.
Qed.

Lemma update_field_getattr_field task_data f v g :
  TaskData.getattr (update_field task_data (kw_field f v)) g
  = if String.eqb (TaskData.field_name f) (TaskData.field_name g)
    then v else TaskData.getattr task_data g.
Proof.
  rewrite update_field_field.
  destruct (String.eqb _ _) eqn:He.
  - apply String.eqb_eq, field_name_inj in He. subst g.
    apply getattr_setattr_eq.
  - apply String.eqb_neq in He. apply getattr_setattr_ne. congruence.
Qed.

Lemma update_field_getattr_extra task_data k v Hk g :
  TaskData.getattr (update_field task_data (kw_extra k v Hk)) g
  = TaskData.getattr task_data g.
Proof. rewrite update_field_extra. apply getattr_set_meta. Qed.

Lemma update_field_getattr_id task_data i g :
  TaskData.getattr (update_field task_data (kw_id i)) g
  = TaskData.getattr task_data g.
Proof. rewrite update_field_id_keyword. apply getattr_set_id. Qed.

Lemma update_field_commute task_data a b :
  kwarg_name a <> kwarg_name b ->
  kwarg_name a <> "meta" ->
  kwarg_name b <> "meta" ->
  update_field (update_field task_data a) b
  = update_field (update_field task_data b) a.
Proof.
  intros Hab Ha Hb. apply task_data_ext.
  - rewrite !update_field_id_of.
    destruct a, b; try reflexivity. now destruct Hab.
  - intros h.
    destruct a as [f v|m|k v Hk|i|q]; [| now destruct Ha | | |];
      (destruct b as [g u|m'|k' u Hk'|j|q']; [| now destruct Hb | | |]);
      rewrite ?update_field_queue;
      repeat rewrite ?update_field_getattr_field,
        ?update_field_getattr_extra, ?update_field_getattr_id;
      try reflexivity.
    simpl in Hab.
    destruct (String.eqb (TaskData.field_name g) (TaskData.field_name h))
      eqn:Hg;
      destruct (String.eqb (TaskData.field_name f) (TaskData.field_name h))
        eqn:Hf; try reflexivity.
    apply String.eqb_eq in Hg, Hf. congruence.
  - rewrite !update_field_meta_of.
    destruct a as [f v|m|k v Hk|i|q]; [| now destruct Ha | | |];
      (destruct b as [g u|m'|k' u Hk'|j|q']; [| now destruct Hb | | |]);
      rewrite ?update_field_meta_of; try reflexivity.
    simpl in Hab. apply insert_insert_ne. congruence.
Qed.

Lemma plain_cons kw params :
  plain (kw :: params) ->
  (kwarg_name kw ∉ kwarg_name <$> params) /\
  kwarg_name kw <> "meta" /\
  plain params.
Proof.
  unfold plain. rewrite fmap_cons. intros [Hnd Hm].
  apply NoDup_cons in Hnd as [Hkw Hnd].
  apply not_elem_of_cons in Hm as [Hm1 Hm]. auto.
Qed.

Lemma plain_permutation params params' :
  (params ≡ₚ params') -> plain params -> plain params'.
Proof.
  unfold plain. intros Hp [Hnd Hm]. split.
  - now rewrite <- Hp.
  - now rewrite <- Hp.
Qed.

Lemma update_fields_permutation params params' :
  (params ≡ₚ params') ->
  plain params ->
  forall task_data,
    update_fields task_data params = update_fields task_data params'.
Proof.
  unfold update_fields.
  induction 1 as [|kw l l' Hp IH|a b l|l l' l'' Hp1 IH1 Hp2 IH2];
    intros Hpl task_data.
  - reflexivity.
  - simpl. apply IH. now apply plain_cons in Hpl.
  - simpl. f_equal.
    apply plain_cons in Hpl as (Hb & Hbm & Hpl).
    apply plain_cons in Hpl as (_ & Ham & _).
    rewrite fmap_cons in Hb. apply not_elem_of_cons in Hb as [Hba _].
    apply update_field_commute; congruence.
  - rewrite IH1 by exact Hpl. apply IH2.
    now apply (plain_permutation l l').
Qed.

(** X3: when a save supplies no meta mapping, the order in which the
    fields come out of [params.items()] does not matter: on an existing
    record two orders of the same fields write the same record, under the
    task id and under every other id. *)
Theorem save_task_order_of_fields task_id params params' st task_data :
  stored st task_id = Some task_data ->
  plain params ->
  (params ≡ₚ params') ->
  stored (snd (TaskBackend.save_task task_id params st)) task_id
  = stored (snd (TaskBackend.save_task task_id params' st)) task_id /\
  update_fields task_data params = update_fields task_data params' /\
  taskdata (snd (TaskBackend.save_task task_id params st))
  = taskdata (snd (TaskBackend.save_task task_id params' st)).
Proof.
  intros Hs Hpl Hp.
  rewrite !save_task_run, !(saved_existing _ _ _ _ Hs).
  now rewrite (update_fields_permutation _ _ Hp Hpl).
Qed.

Lemma update_fields_meta_of params a b :
  TaskData.meta a = TaskData.meta b ->
  TaskData.meta (update_fields a params)
  = TaskData.meta (update_fields b params).
Proof.
  unfold update_fields. revert a b.
  induction params as [|kw params IH]; intros a b Hab; simpl; [exact Hab|].
  apply IH. destruct kw as [f v|m|k v Hk|i|q].
  - now rewrite !update_field_field, !meta_setattr.
  - now rewrite !update_field_meta, !meta_set_meta.
  - now rewrite !update_field_extra, !meta_set_meta, Hab.
  - now rewrite !update_field_id_keyword, !meta_set_id.
  - now rewrite !update_field_queue.
Qed.

Lemma update_fields_meta_field params task_data k :
  TaskData.in_dfields k = true ->
  "meta" ∉ kwarg_name <$> params ->
  TaskData.meta (update_fields task_data params) !! k
  = TaskData.meta task_data !! k.
Proof.
  unfold update_fields. revert task_data.
  induction params as [|kw params IH]; intros td Hk Hm; simpl.
  - reflexivity.
  - rewrite fmap_cons in Hm. apply not_elem_of_cons in Hm as [Hm1 Hm].
    rewrite IH by assumption.
    destruct kw as [f v|m|k' v Hk'|i|q].
    + now rewrite update_field_field, meta_setattr.
    + now destruct Hm1.
    + rewrite update_field_extra, meta_set_meta.
      apply lookup_insert_ne. intros ->. congruence.
    + now rewrite update_field_id_keyword, meta_set_id.
    + now rewrite update_field_queue.
Qed.

Lemma update_fields_twice task_data params :
  NoDup (kwarg_name <$> params) ->
  update_fields (update_fields task_data params) params
  = update_fields task_data params.
Proof.
  intros Hnd. apply task_data_ext.
  - destruct (decide ("id" ∈ kwarg_name <$> params)) as [Hin|Hout].
    + apply list_elem_of_fmap in Hin as (kw & Hname & Hin).
      destruct kw as [g v|m|k v Hk|i|q]; simpl in Hname.
      * destruct g; discriminate.
      * discriminate.
      * subst k. discriminate.
      * now rewrite !(update_fields_id_supplied _ params i).
      * discriminate.
    + now rewrite !update_fields_id.
  - intros f.
    destruct (decide (TaskData.field_name f ∈ kwarg_name <$> params))
      as [Hin|Hout].
    + apply list_elem_of_fmap in Hin as (kw & Hname & Hin).
      destruct kw as [g v|m|k v Hk|i|q]; simpl in Hname.
      * apply field_name_inj in Hname as <-.
        unfold update_fields.
        rewrite !(fold_getattr_supplied update_field update_field_field
                    update_field_other _ _ f v) by assumption.
        reflexivity.
      * destruct f; discriminate.
      * pose proof (in_dfields_field f) as Hd. rewrite Hname in Hd.
        congruence.
      * destruct f; discriminate.
      * destruct f; discriminate.
    + unfold update_fields.
      now rewrite (fold_getattr_keep update_field update_field_other
                     params (foldl update_field task_data params)).
  - destruct (decide ("meta" ∈ kwarg_name <$> params)) as [Hin|Hout].
    + apply list_elem_of_fmap in Hin as (kw & Hname & Hin).
      destruct kw as [g v|m|k v Hk|i|q]; simpl in Hname.
      * destruct g; discriminate.
      * apply list_elem_of_split in Hin as (p1 & p2 & Hsplit).
        assert (forall a b,
                  TaskData.meta (update_fields a params)
                  = TaskData.meta (update_fields b params)) as Hany.
        { intros a b. rewrite Hsplit. unfold update_fields.
          rewrite !foldl_app. simpl. rewrite !update_field_meta.
          apply update_fields_meta_of. now rewrite !meta_set_meta. }
        apply Hany.
      * subst k. discriminate.
      * discriminate.
      * discriminate.
    + apply map_eq. intros k.
      destruct (decide (k ∈ kwarg_name <$> params)) as [Hk|Hk].
      * apply list_elem_of_fmap in Hk as (kw & Hname & Hin).
        destruct kw as [g v|m|k' v Hk'|i|q]; simpl in Hname.
        -- apply update_fields_meta_field; [|exact Hout].
           subst k. apply in_dfields_field.
        -- subst k. now destruct Hout; apply list_elem_of_fmap;
             exists (kw_meta m).
        -- subst k'. apply list_elem_of_split in Hin as (p1 & p2 & Hsplit).
           pose proof (NoDup_names_split _ p1 p2 _ Hnd Hsplit) as Hk2.
           assert ("meta" ∉ kwarg_name <$> p2) as Hm2.
           { intros Hm. apply Hout. rewrite Hsplit, fmap_app, fmap_cons.
             apply elem_of_app. right. now apply elem_of_cons; right. }
           assert (forall td,
                     TaskData.meta (update_fields td params) !! k = Some v)
             as Hboth.
           { intros td. rewrite Hsplit. unfold update_fields.
             rewrite foldl_app. simpl.
             fold (update_fields
                     (update_field (foldl update_field td p1)
                                   (kw_extra k v Hk')) p2).
             rewrite update_fields_meta_keep by assumption.
             rewrite update_field_extra, meta_set_meta.
             apply lookup_insert_eq. }
           now rewrite !Hboth.
        -- subst k. now apply update_fields_meta_field.
        -- subst k. now apply update_fields_meta_field.
      * now apply update_fields_meta_keep.
Qed.

(** X4: on an existing record, saving the same fields a second time
    writes the same record as the first time: a repeated save changes
    nothing in the stored record, nor in the record of any other id. *)
Theorem save_task_twice task_id params st task_data :
  stored st task_id = Some task_data ->
  NoDup (kwarg_name <$> params) ->
  let st1 := snd (TaskBackend.save_task task_id params st) in
  let st2 := snd (TaskBackend.save_task task_id params st1) in
  stored st2 task_id = stored st1 task_id /\
  saved st1 task_id params = saved st task_id params /\
  forall k, stored st2 k = stored st1 k.
Proof.
  intros Hstored Hnd st1 st2.
  set (written := update_fields task_data params).
  assert (taskdata st1 = task_manager.upsert written (taskdata st)) as Ht1.
  { subst st1. rewrite save_task_run, (saved_existing _ _ _ _ Hstored).
    reflexivity. }
  assert (saved st1 task_id params = inr written) as Hw1.
  { unfold saved.
    destruct (decide (TaskData.id written = task_id)) as [He|Hne].
    - assert (stored st1 task_id = Some written) as ->.
      { rewrite stored_eq, Ht1, <- He. apply upsert_head. }
      f_equal. now apply update_fields_twice.
    - assert (stored st1 task_id = Some task_data) as ->; [|reflexivity].
      rewrite stored_eq, Ht1, upsert_other by congruence. exact Hstored. }
  assert (taskdata st2 = task_manager.upsert written (taskdata st1)) as Ht2.
  { subst st2. rewrite save_task_run, Hw1. reflexivity. }
  assert (forall k, stored st2 k = stored st1 k) as Hall.
  { intros k. rewrite !stored_eq, Ht2.
    destruct (decide (k = TaskData.id written)) as [->|Hne].
    - rewrite upsert_head, Ht1. symmetry. apply upsert_head.
    - now rewrite upsert_other. }
  split; [apply Hall|]. split; [|exact Hall].
  rewrite Hw1. symmetry. now apply saved_existing.
Qed.

Lemma save_task_order_of_fields_witness :
  stored (one_task states.STARTED []) "t1"
  = Some (task_record "t1" states.STARTED) /\
  plain report_success /\
  (report_success ≡ₚ rev report_success) /\
  stored (snd (TaskBackend.save_task "t1" report_success
                 (one_task states.STARTED []))) "t1"
  = stored (snd (TaskBackend.save_task "t1" (rev report_success)
                   (one_task states.STARTED []))) "t1".
Proof.
  assert (plain report_success) as Hpl.
  { split.
    - apply NoDup_cons. split; [|apply NoDup_singleton].
      intros Hin. apply list_elem_of_singleton in Hin. discriminate Hin.
    - intros Hin. apply elem_of_cons in Hin as [Hin|Hin]; [discriminate|].
      apply list_elem_of_singleton in Hin. discriminate Hin. }
  assert (report_success ≡ₚ rev report_success) as Hp
    by (apply Permutation_swap).
  split; [reflexivity|]. split; [exact Hpl|]. split; [exact Hp|].
  exact (proj1 (save_task_order_of_fields "t1" report_success
                  (rev report_success) (one_task states.STARTED [])
                  (task_record "t1" states.STARTED) eq_refl Hpl Hp)).
Defined.

Lemma save_task_twice_witness :
  stored (one_task states.QUEUED []) "t1"
  = Some (task_record "t1" states.QUEUED) /\
  NoDup (kwarg_name <$> report_started) /\
  stored (snd (TaskBackend.save_task "t1" report_started
                 (snd (TaskBackend.save_task "t1" report_started
                         (one_task states.QUEUED []))))) "t1"
  = stored (snd (TaskBackend.save_task "t1" report_started
                   (one_task states.QUEUED []))) "t1".
Proof.
  assert (NoDup (kwarg_name <$> report_started)) as Hnd.
  { apply NoDup_cons. split; [|apply NoDup_singleton].
    intros Hin. apply list_elem_of_singleton in Hin. discriminate Hin. }
  split; [reflexivity|]. split; [exact Hnd|].
  exact (proj1 (save_task_twice "t1" report_started
                  (one_task states.QUEUED [])
                  (task_record "t1" states.QUEUED) eq_refl Hnd)).
Defined.

(** ** One record per id *)

Lemma ids_of_filter (p : TaskData.t -> bool) table y :
  y ∈ TaskData.id <$> List.filter p table -> y ∈ TaskData.id <$> table.
Proof.
  induction table as [|r table IH]; simpl; [trivial|].
  destruct (p r); rewrite ?fmap_cons, ?elem_of_cons.
  - intros [->|Hy]; [now left|right; now apply IH].
  - intros Hy. right. now apply IH.
Qed.

Lemma filter_unique_ids (p : TaskData.t -> bool) table :
  NoDup (TaskData.id <$> table) ->
  NoDup (TaskData.id <$> List.filter p table).
Proof.
  induction table as [|r table IH]; simpl; [trivial|].
  rewrite ?fmap_cons. intros Hnd. apply NoDup_cons in Hnd as [Hr Hnd].
  destruct (p r); [|now apply IH].
  rewrite ?fmap_cons. apply NoDup_cons. split; [|now apply IH].
  intros Hin. apply Hr. now apply ids_of_filter in Hin.
Qed.

Lemma existsb_has_id_false task_id table :
  existsb (task_manager.has_id task_id) table = false ->
  task_id ∉ TaskData.id <$> table.
Proof.
  induction table as [|r table IH]; simpl.
  - intros _ Hin. now apply elem_of_nil in Hin.
  - intros He. apply orb_false_iff in He as [Hr He].
    rewrite ?fmap_cons. apply not_elem_of_cons. split; [|now apply IH].
    apply has_id_false in Hr. congruence.
Qed.

Lemma upsert_unique_ids task_data table :
  NoDup (TaskData.id <$> table) ->
  NoDup (TaskData.id <$> task_manager.upsert task_data table).
Proof.
  intros Hnd. unfold task_manager.upsert.
  destruct (existsb _ table) eqn:He.
  - assert (TaskData.id
              <$> map (fun r => if task_manager.has_id
                                     (TaskData.id task_data) r
                                then task_data else r) table
            = TaskData.id <$> table) as ->; [|exact Hnd].
    clear. induction table as [|r table IH]; simpl; [reflexivity|].
    rewrite ?fmap_cons. f_equal; [|exact IH].
    destruct (task_manager.has_id (TaskData.id task_data) r) eqn:Hr;
      [|reflexivity].
    apply has_id_true in Hr. congruence.
  - rewrite fmap_app. apply NoDup_app. split; [exact Hnd|]. split.
    + intros x Hx Hin. apply list_elem_of_singleton in Hin. subst x.
      now apply existsb_has_id_false in He.
    + apply NoDup_singleton.
Qed.

Lemma filter_one task_id table r :
  NoDup (TaskData.id <$> table) ->
  head (List.filter (task_manager.has_id task_id) table) = Some r ->
  List.filter (task_manager.has_id task_id) table = [r].
Proof.
  induction table as [|x table IH]; simpl; [discriminate|].
  rewrite ?fmap_cons. intros Hnd. apply NoDup_cons in Hnd as [Hx Hnd].
  destruct (task_manager.has_id task_id x) eqn:Hid; simpl.
  - intros [= ->]. f_equal.
    destruct (List.filter (task_manager.has_id task_id) table) as [|y rest]
      eqn:Hf; [reflexivity|]. exfalso. apply Hx.
    assert (y ∈ List.filter (task_manager.has_id task_id) table) as Hy
      by (rewrite Hf; apply list_elem_of_here).
    apply list_elem_of_In, List.filter_In in Hy as [Hy Hyid].
    apply has_id_true in Hid, Hyid. rewrite Hid, <- Hyid.
    apply list_elem_of_fmap_2. now apply list_elem_of_In.
  - now apply IH.
Qed.

Lemma get_task_taskdata task_id when_done timeout st :
  taskdata (snd (TaskBackend.get_task task_id when_done timeout st))
  = taskdata st.
Proof.
  destruct (TaskBackend.truthy task_id) eqn:Ht.
  - destruct task_id as [explicit|]; [|discriminate].
    rewrite get_task_explicit_run by now apply truthy_Some.
    now destruct (load_loads_record explicit when_done st) as [_ (Ht' & _)].
  - rewrite get_task_pop_run by exact Ht.
    destruct (queue st) as [|popped rest]; [reflexivity|].
    cbv zeta. destruct (String.eqb popped ""); [reflexivity|].
    now destruct (load_loads_record popped when_done
                    (mk_backend (taskdata st) rest (watched_tasks st)
                       (trace st ++ [ev_queue_block_pop_front timeout])))
      as [_ (Ht' & _)].
Qed.

(** X10: the calls of the backend keep one record per id: when no two
    stored records have the same id, this is so again after a save, an
    enqueue, a deletion, a message from the completion channel and a
    dequeue. *)
Theorem unique_ids_kept st :
  unique_ids st ->
  (forall task_id params,
     unique_ids (snd (TaskBackend.save_task task_id params st))) /\
  (forall task_id, unique_ids (snd (TaskBackend.put_task task_id st))) /\
  (forall ids, unique_ids (snd (TaskBackend.delete_tasks ids st))) /\
  (forall task_id, unique_ids (snd (TaskBackend.write task_id st))) /\
  (forall task_id when_done timeout,
     unique_ids (snd (TaskBackend.get_task task_id when_done timeout st))).
Proof.
  unfold unique_ids. intros Hnd. split; [|split; [|split; [|split]]].
  - intros task_id params. rewrite save_task_run.
    destruct (saved st task_id params) as [e|written]; cbn [snd taskdata];
      [exact Hnd|].
    now apply upsert_unique_ids.
  - intros task_id. rewrite put_task_run.
    destruct (stored st task_id); cbn [snd taskdata]; [|exact Hnd].
    now apply upsert_unique_ids.
  - intros ids. destruct (TaskBackend.truthy_ids ids) eqn:Ht.
    + destruct ids as [ids|]; [|discriminate].
      rewrite delete_tasks_run by exact Ht. cbn [snd taskdata].
      now apply filter_unique_ids.
    + unfold TaskBackend.delete_tasks. now rewrite Ht.
  - intros task_id. now rewrite write_run.
  - intros task_id when_done timeout. now rewrite get_task_taskdata.
Qed.

Lemma unique_ids_kept_witness :
  unique_ids (one_task states.QUEUED []) /\
  unique_ids (snd (TaskBackend.save_task "t2" report_success
                     (one_task states.QUEUED []))).
Proof.
  assert (unique_ids (one_task states.QUEUED [])) as Hu
    by (apply NoDup_singleton).
  split; [exact Hu|].
  exact (proj1 (unique_ids_kept (one_task states.QUEUED []) Hu)
           "t2" report_success).
Defined.

(** ** Listing tasks *)

(** X13: with one record per id, after a save that returns, listing the
    tasks with the id of the record the save has written returns one task,
    the one of that record.  The id is the task id of the save unless the
    save has supplied another id. *)
Theorem get_tasks_after_save task_id params st :
  unique_ids st ->
  fst (TaskBackend.save_task task_id params st)
  = TaskBackend.returned task_id ->
  let st1 := snd (TaskBackend.save_task task_id params st) in
  exists written,
    saved st task_id params = inr written /\
    stored st1 (TaskData.id written) = Some written /\
    fst (TaskBackend.get_tasks (id_is (TaskData.id written)) st1)
    = [TaskData.as_task written] /\
    (("id" ∉ kwarg_name <$> params) -> TaskData.id written = task_id).
Proof.
  intros Hu Hret st1. rewrite save_task_outcome in Hret.
  destruct (saved st task_id params) as [e|written] eqn:Hw; [discriminate|].
  exists written.
  pose proof (save_task_stored task_id params st written Hw) as Hs.
  fold st1 in Hs.
  split; [reflexivity|]. split; [exact Hs|]. split.
  - unfold TaskBackend.get_tasks, bind. cbn [fst snd ret].
    unfold task_manager.filter_all, bind. cbn [fst snd emit taskdata].
    rewrite stored_eq in Hs. apply filter_one in Hs.
    + change (matches (id_is (TaskData.id written)))
        with (task_manager.has_id (TaskData.id written)).
      now rewrite Hs.
    + subst st1. rewrite save_task_run, Hw. cbn [snd taskdata].
      now apply upsert_unique_ids.
  - intros Hid. exact (saved_id st task_id params written Hw Hid).
Qed.

Lemma get_tasks_after_save_witness :
  unique_ids (one_task states.QUEUED []) /\
  fst (TaskBackend.save_task "t1" report_started (one_task states.QUEUED []))
  = TaskBackend.returned "t1" /\
  exists written,
    saved (one_task states.QUEUED []) "t1" report_started = inr written /\
    stored (snd (TaskBackend.save_task "t1" report_started
                   (one_task states.QUEUED []))) (TaskData.id written)
    = Some written /\
    fst (TaskBackend.get_tasks (id_is (TaskData.id written))
           (snd (TaskBackend.save_task "t1" report_started
                   (one_task states.QUEUED []))))
    = [TaskData.as_task written] /\
    (("id" ∉ kwarg_name <$> report_started) -> TaskData.id written = "t1").
Proof.
  assert (unique_ids (one_task states.QUEUED [])) as Hu
    by (apply NoDup_singleton).
  split; [exact Hu|]. split; [reflexivity|].
  exact (get_tasks_after_save "t1" report_started
           (one_task states.QUEUED []) Hu eq_refl).
Defined.

(** ** Deleting, next to the other records and calls *)

Lemma existsb_eqb_elem_of (x : string) (ids : list string) :
  existsb (String.eqb x) ids = true <-> x ∈ ids.
Proof.
  rewrite existsb_exists. split.
  - intros (y & Hy & He). apply String.eqb_eq in He. subst y.
    now apply list_elem_of_In.
  - intros Hx. exists x. split; [now apply list_elem_of_In|].
    apply String.eqb_refl.
Qed.

Lemma filter_deleted_other ids k table :
  k ∉ ids ->
  List.filter (task_manager.has_id k)
    (List.filter (fun r => negb (matches (id_in ids) r)) table)
  = List.filter (task_manager.has_id k) table.
Proof.
  intros Hk. induction table as [|r table IH]; [reflexivity|].
  cbn [List.filter].
  destruct (matches (id_in ids) r) eqn:He; cbn [negb List.filter].
  - rewrite IH. destruct (task_manager.has_id k r) eqn:Hr; [|reflexivity].
    apply has_id_true in Hr. simpl in He. apply existsb_eqb_elem_of in He.
    rewrite Hr in He. now destruct Hk.
  - now rewrite IH.
Qed.

Lemma filter_deleted_same ids k table :
  k ∈ ids ->
  List.filter (task_manager.has_id k)
    (List.filter (fun r => negb (matches (id_in ids) r)) table) = [].
Proof.
  intros Hk. induction table as [|r table IH]; [reflexivity|].
  cbn [List.filter].
  destruct (matches (id_in ids) r) eqn:He; cbn [negb List.filter];
    [exact IH|].
  rewrite IH. destruct (task_manager.has_id k r) eqn:Hr; [|reflexivity].
  apply has_id_true in Hr. apply existsb_eqb_elem_of in Hk.
  simpl in He. rewrite <- Hr in Hk. congruence.
Qed.

Lemma filter_deleted_matching (q : query) table :
  List.filter (matches q)
    (List.filter (fun r => negb (matches q r)) table) = [].
Proof.
  induction table as [|r table IH]; [reflexivity|].
  cbn [List.filter].
  destruct (matches q r) eqn:Hr; cbn [negb List.filter]; [exact IH|].
  now rewrite Hr.
Qed.

Lemma filter_deleted_again (q : query) table :
  List.filter (fun r => negb (matches q r))
    (List.filter (fun r => negb (matches q r)) table)
  = List.filter (fun r => negb (matches q r)) table.
Proof.
  induction table as [|r table IH]; [reflexivity|].
  cbn [List.filter].
  destruct (matches q r) eqn:Hr; cbn [negb List.filter]; [exact IH|].
  rewrite Hr. cbn [negb]. now rewrite IH.
Qed.

Lemma truthy_ids_elem_of (ids : list string) x :
  x ∈ ids -> TaskBackend.truthy_ids (Some ids) = true.
Proof.
  destruct ids; [|reflexivity]. intros Hx. now apply elem_of_nil in Hx.
Qed.

(** X7: a deletion leaves the ready queue as it is, so the ids of deleted
    tasks stay in it, and it leaves the record of every id that is not
    among the ids it is given. *)
Theorem delete_tasks_other_records ids st k :
  let st' := snd (TaskBackend.delete_tasks (Some ids) st) in
  queue st' = queue st /\
  (k ∉ ids -> stored st' k = stored st k).
Proof.
  intros st'. subst st'.
  destruct (TaskBackend.truthy_ids (Some ids)) eqn:Ht.
  - rewrite delete_tasks_run by exact Ht. cbn [snd queue].
    split; [reflexivity|]. intros Hk. rewrite !stored_eq. cbn [taskdata].
    now rewrite filter_deleted_other.
  - unfold TaskBackend.delete_tasks. rewrite Ht. auto.
Qed.

Lemma delete_tasks_other_records_witness :
  ("t1" ∉ ["t9"]) /\
  stored (snd (TaskBackend.delete_tasks (Some ["t9"])
                 (one_task states.QUEUED ["t1"]))) "t1"
  = Some (task_record "t1" states.QUEUED).
Proof.
  assert ("t1" ∉ ["t9"]) as Hk.
  { intros Hin. apply list_elem_of_singleton in Hin. discriminate Hin. }
  split; [exact Hk|].
  exact (proj2 (delete_tasks_other_records ["t9"]
                  (one_task states.QUEUED ["t1"]) "t1") Hk).
Defined.

(** X8: when a task is deleted while its id waits at the front of the
    ready queue, the id is still there after the deletion; the next
    dequeue pops it, finds no record and yields nothing. *)
Theorem get_task_after_delete ids st task_id rest when_done timeout :
  task_id ∈ ids ->
  queue st = task_id :: rest ->
  let st1 := snd (TaskBackend.delete_tasks (Some ids) st) in
  queue st1 = task_id :: rest /\
  fst (TaskBackend.get_task None when_done timeout st1) = TaskBackend.absent /\
  queue (snd (TaskBackend.get_task None when_done timeout st1)) = rest.
Proof.
  intros Hin Hq st1. subst st1.
  rewrite delete_tasks_run by now apply (truthy_ids_elem_of ids task_id).
  cbn [snd queue]. split; [exact Hq|].
  rewrite get_task_pop_run by reflexivity.
  cbn [queue taskdata watched_tasks trace]. rewrite Hq. cbv zeta.
  destruct (String.eqb task_id ""); [now split|].
  unfold load. rewrite stored_eq. cbn [taskdata].
  rewrite filter_deleted_same by exact Hin. now split.
Qed.

Lemma get_task_after_delete_witness :
  ("t1" ∈ ["t1"]) /\
  fst (TaskBackend.get_task None false 1
         (snd (TaskBackend.delete_tasks (Some ["t1"])
                 (one_task states.QUEUED ["t1"]))))
  = TaskBackend.absent.
Proof.
  assert ("t1" ∈ ["t1"]) as Hin by (apply list_elem_of_here).
  split; [exact Hin|].
  exact (proj1 (proj2 (get_task_after_delete ["t1"]
                         (one_task states.QUEUED ["t1"]) "t1" [] false 1
                         Hin eq_refl))).
Defined.

(** X9: after a deletion, listing the tasks with the deleted ids returns
    nothing, and a second deletion with the same ids returns 0 and
    changes neither the records nor the waiters. *)
Theorem delete_tasks_twice ids st :
  let st1 := snd (TaskBackend.delete_tasks (Some ids) st) in
  let again := TaskBackend.delete_tasks (Some ids) st1 in
  fst (TaskBackend.get_tasks (id_in ids) st1) = [] /\
  fst again = 0 /\
  taskdata (snd again) = taskdata st1 /\
  watched_tasks (snd again) = watched_tasks st1.
Proof.
  intros st1 again. subst again st1.
  destruct (TaskBackend.truthy_ids (Some ids)) eqn:Ht.
  - rewrite (delete_tasks_run ids (snd _)) by exact Ht.
    rewrite delete_tasks_run by exact Ht.
    cbn [fst snd taskdata watched_tasks].
    unfold TaskBackend.get_tasks, task_manager.filter_all, bind.
    cbn [fst snd emit ret taskdata].
    rewrite filter_deleted_matching, filter_deleted_again.
    repeat split.
  - destruct ids; [|discriminate]. repeat split.
    cbn. induction (taskdata st) as [|r table IH]; [reflexivity|exact IH].
Qed.

(** ** From the producer to the worker and the observer *)

(** X6: the ready queue serves the ids in the order of [put_task].  On an
    empty queue, an enqueue followed by a dequeue without id yields the
    enqueued task, with the status QUEUED, and the queue is empty again;
    on a queue that holds ids, the dequeue takes the first of them and
    the enqueued id waits behind the others. *)
Theorem put_task_then_get_task task_id st task_data timeout :
  stored st task_id = Some task_data ->
  task_id <> "" ->
  let st1 := snd (TaskBackend.put_task task_id st) in
  let r := TaskBackend.get_task None false timeout st1 in
  match queue st with
  | [] =>
      fst r = TaskBackend.a_task
                (TaskData.as_task
                   (TaskData.setattr task_data TaskData.f_status
                                     (VStr states.QUEUED))) /\
      queue (snd r) = []
  | first :: rest => queue (snd r) = rest ++ [task_id]
  end.
Proof.
  intros Hs Hne st1 r. subst r st1.
  pose proof (stored_id _ _ _ Hs) as Hid.
  rewrite put_task_run, Hs. cbn [snd].
  rewrite get_task_pop_run by reflexivity.
  cbn [queue taskdata watched_tasks trace]. rewrite id_setattr, Hid.
  destruct (queue st) as [|first rest]; cbn [app]; cbv zeta.
  - apply String.eqb_neq in Hne. rewrite Hne.
    pose proof (upsert_head
                  (TaskData.setattr task_data TaskData.f_status
                                    (VStr states.QUEUED))
                  (taskdata st)) as Hh.
    rewrite id_setattr, Hid in Hh.
    unfold load. rewrite stored_eq. cbn [taskdata]. rewrite Hh.
    cbn [fst snd queue]. now split.
  - destruct (String.eqb first ""); [reflexivity|].
    match goal with
    | |- context [load first false ?s] =>
        destruct (load_loads_record first false s) as [_ (_ & Hq & _)]
    end.
    exact Hq.
Qed.

Lemma put_task_then_get_task_witness :
  stored (one_task states.STARTED []) "t1"
  = Some (task_record "t1" states.STARTED) /\
  "t1" <> "" /\
  fst (TaskBackend.get_task None false 1
         (snd (TaskBackend.put_task "t1" (one_task states.STARTED []))))
  = TaskBackend.a_task
      (TaskData.as_task (task_record "t1" states.QUEUED)).
Proof.
  assert ("t1" <> "") as Hne by discriminate.
  split; [reflexivity|]. split; [exact Hne|].
  exact (proj1 (put_task_then_get_task "t1" (one_task states.STARTED [])
                  (task_record "t1" states.STARTED) 1 eq_refl Hne)).
Defined.

Lemma save_task_done_run task_id params st task_data :
  stored st task_id = Some task_data ->
  ("id" ∉ kwarg_name <$> params) ->
  states.is_ready (TaskData.status (update_fields task_data params)) = true ->
  let st' := snd (TaskBackend.save_task task_id params st) in
  stored st' task_id = Some (update_fields task_data params) /\
  watched_tasks st' = watched_tasks st /\
  trace st'
  = (trace st ++ [ev_filter_all (id_is task_id); ev_save task_id])
    ++ [ev_publish "task_done" task_id].
Proof.
  intros Hs Hnoid Hready st'. subst st'.
  pose proof (saved_existing st task_id params task_data Hs) as Hsaved.
  assert (TaskData.id (update_fields task_data params) = task_id) as Hi.
  { rewrite update_fields_id by exact Hnoid. exact (stored_id _ _ _ Hs). }
  split.
  - pose proof (save_task_stored task_id params st _ Hsaved) as Hst.
    now rewrite Hi in Hst.
  - rewrite save_task_run, Hsaved. cbn [snd watched_tasks trace].
    unfold save_event. rewrite Hs, Hi.
    unfold TaskCallbacks.when_done. rewrite as_task_done, Hready.
    cbn [snd]. split; [reflexivity|]. now rewrite <- app_assoc.
Qed.

(** X14: an observer asks for a task that is not done with [when_done]
    and gets a handle.  When a save that supplies no other id then stores
    a status that is done, the save publishes the id as its last
    interaction, and the message, once [write] receives it, fulfils the
    handle with the task as saved, in the status of the save; no waiter of
    the id is left. *)
Theorem waiter_is_fulfilled task_id st task_data timeout :
  stored st task_id = Some task_data ->
  task_id <> "" ->
  states.is_ready (TaskData.status task_data) = false ->
  let asked := TaskBackend.get_task (Some task_id) true timeout st in
  exists h,
    fst asked = TaskBackend.a_deferred (TaskCallbacks.waiting h) /\
    forall params v,
      NoDup (kwarg_name <$> params) ->
      ("id" ∉ kwarg_name <$> params) ->
      kw_field TaskData.f_status v ∈ params ->
      states.is_ready v = true ->
      let st2 := snd (TaskBackend.save_task task_id params (snd asked)) in
      let st3 := snd (TaskBackend.write task_id st2) in
      let task := TaskData.as_task (update_fields task_data params) in
      (exists before,
         trace st2 = before ++ [ev_publish "task_done" task_id]) /\
      Task.status task = v /\
      (h, task) ∈ TaskCallbacks.fulfilled (watched_tasks st3) /\
      TaskCallbacks.waiters (watched_tasks st3) task_id = [].
Proof.
  intros Hs Hne Hnot asked. subst asked.
  pose proof (stored_id _ _ _ Hs) as Hid.
  rewrite get_task_explicit_run by exact Hne.
  destruct (load_loads_record task_id true st) as [_ (Htd & _ & Hload)].
  rewrite Hs in Hload. cbv zeta in Hload. rewrite Hnot in Hload.
  destruct Hload as (h & Hr & _ & Hfulfil).
  exists h. split; [exact Hr|].
  intros params v Hnd Hnoid Hin Hready.
  set (st1 := snd (load task_id true st)) in *.
  assert (stored st1 task_id = Some task_data) as Hs1
    by (rewrite stored_eq, Htd, <- stored_eq; exact Hs).
  assert (TaskData.status (update_fields task_data params) = v) as Hv.
  { apply (fold_getattr_supplied update_field update_field_field
             update_field_other _ _ TaskData.f_status); assumption. }
  destruct (save_task_done_run task_id params st1 task_data Hs1 Hnoid)
    as (Hs2 & Hw2 & Htr2); [now rewrite Hv|].
  cbv zeta. rewrite write_run. cbn [snd watched_tasks].
  rewrite Hs2, Hw2.
  split; [|split; [|split]].
  - eexists. exact Htr2.
  - now rewrite as_task_status.
  - apply Hfulfil.
    + rewrite as_task_id, update_fields_id by exact Hnoid. exact Hid.
    + now rewrite as_task_done, Hv.
  - apply waiters_none.
    pose proof (finish_pending_same (watched_tasks st1)
                  (TaskData.as_task (update_fields task_data params))) as Hp.
    rewrite as_task_id, update_fields_id, Hid in Hp by exact Hnoid.
    exact Hp.
Qed.

Lemma waiter_is_fulfilled_witness :
  stored (one_task states.STARTED []) "t1"
  = Some (task_record "t1" states.STARTED) /\
  "t1" <> "" /\
  states.is_ready (VStr states.STARTED) = false /\
  NoDup (kwarg_name <$> report_success) /\
  ("id" ∉ kwarg_name <$> report_success) /\
  exists h,
    fst (TaskBackend.get_task (Some "t1") true 1 (one_task states.STARTED []))
    = TaskBackend.a_deferred (TaskCallbacks.waiting h) /\
    (h, TaskData.as_task
          (update_fields (task_record "t1" states.STARTED) report_success))
      ∈ TaskCallbacks.fulfilled
          (watched_tasks
             (snd (TaskBackend.write "t1"
                     (snd (TaskBackend.save_task "t1" report_success
                             observed))))).
Proof.
  assert ("t1" <> "") as Hne by discriminate.
  assert (NoDup (kwarg_name <$> report_success)) as Hnd.
  { apply NoDup_cons. split; [|apply NoDup_singleton].
    intros Hin. apply list_elem_of_singleton in Hin. discriminate Hin. }
  assert ("id" ∉ kwarg_name <$> report_success) as Hnoid.
  { intros Hin. apply elem_of_cons in Hin as [Hin|Hin]; [discriminate|].
    apply list_elem_of_singleton in Hin. discriminate Hin. }
  assert (kw_field TaskData.f_status (VStr states.SUCCESS) ∈ report_success)
    as Hin by (apply elem_of_cons; right; apply list_elem_of_here).
  split; [reflexivity|]. split; [exact Hne|]. split; [reflexivity|].
  split; [exact Hnd|]. split; [exact Hnoid|].
  destruct (waiter_is_fulfilled "t1" (one_task states.STARTED [])
              (task_record "t1" states.STARTED) 1 eq_refl Hne eq_refl)
    as [h [Hh Hrest]].
  exists h. split; [exact Hh|].
  destruct (Hrest report_success (VStr states.SUCCESS) Hnd Hnoid Hin eq_refl)
    as (_ & _ & Hf & _).
  exact Hf.
Defined.

(** X15: [put_task] does not look into the ready queue: enqueueing the id
    of a stored record twice leaves the id twice at the back of the
    queue, and [num_tasks] counts both. *)
Theorem put_task_twice task_id st task_data :
  stored st task_id = Some task_data ->
  let st2 :=
    snd (TaskBackend.put_task task_id
           (snd (TaskBackend.put_task task_id st))) in
  queue st2 = queue st ++ [task_id; task_id] /\
  fst (TaskBackend.num_tasks st2) = fst (TaskBackend.num_tasks st) + 2.
Proof.
  intros Hs st2. subst st2.
  pose proof (stored_id _ _ _ Hs) as Hid.
  pose proof (upsert_head
                (TaskData.setattr task_data TaskData.f_status
                                  (VStr states.QUEUED))
                (taskdata st)) as Hh.
  rewrite id_setattr, Hid in Hh.
  rewrite (put_task_run task_id st), Hs. cbn [snd].
  rewrite put_task_run, stored_eq. cbn [taskdata]. rewrite Hh.
  cbn [snd queue]. rewrite !id_setattr, Hid.
  assert ((queue st ++ [task_id]) ++ [task_id]
          = queue st ++ [task_id; task_id]) as ->
    by now rewrite <- app_assoc.
  split; [reflexivity|]. cbn. rewrite length_app. reflexivity.
Qed.

Lemma put_task_twice_witness :
  stored (one_task states.QUEUED ["t0"]) "t1"
  = Some (task_record "t1" states.QUEUED) /\
  queue (snd (TaskBackend.put_task "t1"
                (snd (TaskBackend.put_task "t1"
                        (one_task states.QUEUED ["t0"])))))
  = ["t0"; "t1"; "t1"].
Proof.
  split; [reflexivity|].
  exact (proj1 (put_task_twice "t1" (one_task states.QUEUED ["t0"])
                  (task_record "t1" states.QUEUED) eq_refl)).
Defined.

(** ** The message of the completion channel *)

